(** * ThreeAteSix: the 16-bit execution core

  A shallow embedding of the CPU core of the emulator
  (devices/intel8086/80386_cpu.go and the opcode handlers of package cpu)
  together with the properties its specification states about it.

  Conventions.
  - Go's fixed-width integers are [Z] values; every arithmetic operation is
    followed by the truncation Go performs at that type ([uint8],
    [uint16], [uint32], [int16]).
  - The core mutates itself and the devices it holds pointers to.  This is
    written as a state-and-failure monad [Exec] over [CpuCore]; the bus and
    the memory access controller the core points to are carried inside the
    state, each with the list of operations it was asked to perform.
  - [log.Fatal]/[log.Fatalf] end the process and a Go [panic] unwinds it;
    both are outcomes of [Exec].  [log.Printf]/[log.Print] lines are
    diagnostics only and are not part of the model. *)

From Stdlib Require Import ZArith List String Bool Lia.
Import ListNotations.
Open Scope Z_scope.

(** ** Fixed-width integers *)

Definition uint8 (x : Z) : Z := x mod 2 ^ 8.
Definition uint16 (x : Z) : Z := x mod 2 ^ 16.
Definition uint32 (x : Z) : Z := x mod 2 ^ 32.

(** Conversion to [int16]: the low 16 bits read as two's complement. *)
Definition int16 (x : Z) : Z :=
let u := x mod 2 ^ 16 in
if u <? 2 ^ 15 then u else u - 2 ^ 16.

(** Slice indexing; Go panics outside [0, len). *)
Definition index {A : Type} (l : list A) (i : Z) : option A :=
if i <? 0 then None else nth_error l (Z.to_nat i).

Fixpoint update_nat {A : Type} (l : list A) (n : nat) (a : A)
  : option (list A) :=
match l, n with
| [], _ => None
| _ :: t, O => Some (a :: t)
| h :: t, S n' =>
    match update_nat t n' a with
    | Some t' => Some (h :: t')
    | None => None
    end
end.

Definition update {A : Type} (l : list A) (i : Z) (a : A) : option (list A) :=
if i <? 0 then None else update_nat l (Z.to_nat i) a.

(** ** Package common: identifiers shared by the devices

  The package is not part of the sources at hand; its constants are taken
  as a parameter of the development. *)

Record Common : Type := {
MODULE_PRIMARY_PROCESSOR : Z;
MODULE_MEMORY_ACCESS_CONTROLLER : Z;
MODULE_IO_PORT_ACCESS_CONTROLLER : Z;
REAL_MODE : Z;
PROTECTED_MODE : Z;
MESSAGE_REQUEST_CPU_MODESWITCH : Z;
MESSAGE_GLOBAL_CPU_MODESWITCH : Z;
MESSAGE_GLOBAL_LOCK_BIOS_MEM_REGION : Z
}.

(** ** Package bus *)

Module bus.

Record BusMessage : Type := {
  Subject : Z;
  Data : list Z
}.

(** Modelled from the spec: the inter-device message bus.  Only its
    boundary is specified (messages are broadcast on it); a bus is
    the sequence of messages sent so far, oldest first. *)
Record Bus : Type := {
  sent : list BusMessage
}.

Definition SendMessage (b : Bus) (m : BusMessage) : Bus :=
  {| sent := sent b ++ [m] |}.

End bus.

(** ** Package memmap *)

Module memmap.

Inductive Access : Type :=
| Read8 (addr : Z)
| Read16 (addr : Z)
| Write8 (addr value : Z)
| Write16 (addr value : Z).

(** Modelled from the spec: the memory accessor, typed reads and writes
    on a flat byte array that do not fail, 16-bit values little-endian.
    [accesses] records the operations issued, oldest first. *)
Record MemoryAccessController : Type := {
  ram : Z -> Z;
  accesses : list Access
}.

Definition byte_at (m : MemoryAccessController) (addr : Z) : Z :=
  uint8 (ram m addr).

Definition word_at (m : MemoryAccessController) (addr : Z) : Z :=
  byte_at m addr + 2 ^ 8 * byte_at m (addr + 1).

Definition store (f : Z -> Z) (addr value : Z) : Z -> Z :=
  fun a => if a =? addr then value else f a.

Definition ReadAddr8 (m : MemoryAccessController) (addr : Z)
  : Z * MemoryAccessController :=
  (byte_at m addr,
   {| ram := ram m; accesses := accesses m ++ [Read8 addr] |}).

Definition ReadAddr16 (m : MemoryAccessController) (addr : Z)
  : Z * MemoryAccessController :=
  (word_at m addr,
   {| ram := ram m; accesses := accesses m ++ [Read16 addr] |}).

Definition WriteAddr8 (m : MemoryAccessController) (addr value : Z)
  : MemoryAccessController :=
  {| ram := store (ram m) addr (uint8 value);
     accesses := accesses m ++ [Write8 addr value] |}.

Definition WriteAddr16 (m : MemoryAccessController) (addr value : Z)
  : MemoryAccessController :=
  {| ram := store (store (ram m) addr (uint8 value))
                  (addr + 1) (uint8 (Z.shiftr value 8));
     accesses := accesses m ++ [Write16 addr value] |}.

End memmap.

(** ** Package io *)

Module io.

Inductive Access : Type :=
| Read8 (port : Z)
| Read16 (port : Z)
| Write8 (port value : Z)
| Write16 (port value : Z).

(** Modelled from the spec: the I/O port accessor, typed reads and writes
    that do not fail on a port space of its own, laid out like memory.
    [accesses] records the operations issued, oldest first. *)
Record IOPortAccessController : Type := {
  ports : Z -> Z;
  accesses : list Access
}.

Definition ReadAddr8 (d : IOPortAccessController) (port : Z)
  : Z * IOPortAccessController :=
  (uint8 (ports d port),
   {| ports := ports d; accesses := accesses d ++ [Read8 port] |}).

Definition ReadAddr16 (d : IOPortAccessController) (port : Z)
  : Z * IOPortAccessController :=
  (uint8 (ports d port) + 2 ^ 8 * uint8 (ports d (port + 1)),
   {| ports := ports d; accesses := accesses d ++ [Read16 port] |}).

Definition WriteAddr8 (d : IOPortAccessController) (port value : Z)
  : IOPortAccessController :=
  {| ports := memmap.store (ports d) port (uint8 value);
     accesses := accesses d ++ [Write8 port value] |}.

Definition WriteAddr16 (d : IOPortAccessController) (port value : Z)
  : IOPortAccessController :=
  {| ports := memmap.store (memmap.store (ports d) port (uint8 value))
                (port + 1) (uint8 (Z.shiftr value 8));
     accesses := accesses d ++ [Write16 port value] |}.

End io.

(** ** Devices on the bus

    [bus.FindSingleDevice] returns the device registered under a module id
    as an interface value, which [Init] asserts to be of the type it
    expects.  The registry is not part of the sources at hand; a lookup
    gives one of the devices below, or nothing. *)
Inductive Device : Type :=
| MemoryAccessControllerDevice (m : memmap.MemoryAccessController)
| IOPortAccessControllerDevice (d : io.IOPortAccessController)
| OtherDevice.

(** ** The register file

    The declaration of [CpuRegisters] is not among the sources at hand.  Its
    fields are the ones the core and the handlers name: the 8-bit and the
    16-bit general registers (separate locations in this version of the
    source), the segment registers, [IP], one 16-bit word per flag, and three
    index tables of pointers into the structure.  The flag [IF] is written
    [IF_]. *)

Inductive Reg8 : Type := rAL | rCL | rDL | rBL | rAH | rCH | rDH | rBH.
Inductive Reg16 : Type := rAX | rCX | rDX | rBX | rSP | rBP | rSI | rDI.
Inductive SegReg : Type := rES | rCS | rSS | rDS.

(** A Go pointer is the address of a field of the register file or of a
    local variable that escaped to the heap; the latter live in the cells
    [locals8]/[locals16] of the state. *)
Inductive Ptr8 : Type := Field8 (r : Reg8) | Cell8 (n : nat).
Inductive Ptr16 : Type := Field16 (r : Reg16) | Cell16 (n : nat).
Inductive PtrSeg : Type := FieldSeg (r : SegReg).

Record CpuRegisters : Type := {
  AL : Z;
  CL : Z;
  DL : Z;
  BL : Z;
  AH : Z;
  CH : Z;
  DH : Z;
  BH : Z;
  AX : Z;
  CX : Z;
  DX : Z;
  BX : Z;
  SP : Z;
  BP : Z;
  SI : Z;
  DI : Z;
  ES : Z;
  CS : Z;
  SS : Z;
  DS : Z;
  IP : Z;
  CF : Z;
  PF : Z;
  AF : Z;
  ZF : Z;
  SF : Z;
  TF : Z;
  IF_ : Z;
  DF : Z;
  OF : Z;
  registers8Bit : list Ptr8;
  registers16Bit : list Ptr16;
  registersSegmentRegisters : list PtrSeg
}.

(** Field updates ([core.registers.IP = v] and the like). *)

Definition set_IP (v : Z) (r : CpuRegisters) : CpuRegisters :=
  Build_CpuRegisters (AL r) (CL r) (DL r) (BL r) (AH r) (CH r) (DH r) (BH r)
    (AX r) (CX r) (DX r) (BX r) (SP r) (BP r) (SI r) (DI r) (ES r) (CS r)
    (SS r) (DS r) v (CF r) (PF r) (AF r) (ZF r) (SF r) (TF r) (IF_ r) (DF r)
    (OF r) (registers8Bit r) (registers16Bit r)
    (registersSegmentRegisters r).

Definition set_CS (v : Z) (r : CpuRegisters) : CpuRegisters :=
  Build_CpuRegisters (AL r) (CL r) (DL r) (BL r) (AH r) (CH r) (DH r) (BH r)
    (AX r) (CX r) (DX r) (BX r) (SP r) (BP r) (SI r) (DI r) (ES r) v (SS r)
    (DS r) (IP r) (CF r) (PF r) (AF r) (ZF r) (SF r) (TF r) (IF_ r) (DF r)
    (OF r) (registers8Bit r) (registers16Bit r)
    (registersSegmentRegisters r).

Definition set_AL (v : Z) (r : CpuRegisters) : CpuRegisters :=
  Build_CpuRegisters v (CL r) (DL r) (BL r) (AH r) (CH r) (DH r) (BH r)
    (AX r) (CX r) (DX r) (BX r) (SP r) (BP r) (SI r) (DI r) (ES r) (CS r)
    (SS r) (DS r) (IP r) (CF r) (PF r) (AF r) (ZF r) (SF r) (TF r) (IF_ r)
    (DF r) (OF r) (registers8Bit r) (registers16Bit r)
    (registersSegmentRegisters r).

Definition set_AX (v : Z) (r : CpuRegisters) : CpuRegisters :=
  Build_CpuRegisters (AL r) (CL r) (DL r) (BL r) (AH r) (CH r) (DH r) (BH r)
    v (CX r) (DX r) (BX r) (SP r) (BP r) (SI r) (DI r) (ES r) (CS r) (SS r)
    (DS r) (IP r) (CF r) (PF r) (AF r) (ZF r) (SF r) (TF r) (IF_ r) (DF r)
    (OF r) (registers8Bit r) (registers16Bit r)
    (registersSegmentRegisters r).

Definition set_BX (v : Z) (r : CpuRegisters) : CpuRegisters :=
  Build_CpuRegisters (AL r) (CL r) (DL r) (BL r) (AH r) (CH r) (DH r) (BH r)
    (AX r) (CX r) (DX r) v (SP r) (BP r) (SI r) (DI r) (ES r) (CS r) (SS r)
    (DS r) (IP r) (CF r) (PF r) (AF r) (ZF r) (SF r) (TF r) (IF_ r) (DF r)
    (OF r) (registers8Bit r) (registers16Bit r)
    (registersSegmentRegisters r).

Definition set_CF (v : Z) (r : CpuRegisters) : CpuRegisters :=
  Build_CpuRegisters (AL r) (CL r) (DL r) (BL r) (AH r) (CH r) (DH r) (BH r)
    (AX r) (CX r) (DX r) (BX r) (SP r) (BP r) (SI r) (DI r) (ES r) (CS r)
    (SS r) (DS r) (IP r) v (PF r) (AF r) (ZF r) (SF r) (TF r) (IF_ r) (DF r)
    (OF r) (registers8Bit r) (registers16Bit r)
    (registersSegmentRegisters r).

Definition set_PF (v : Z) (r : CpuRegisters) : CpuRegisters :=
  Build_CpuRegisters (AL r) (CL r) (DL r) (BL r) (AH r) (CH r) (DH r) (BH r)
    (AX r) (CX r) (DX r) (BX r) (SP r) (BP r) (SI r) (DI r) (ES r) (CS r)
    (SS r) (DS r) (IP r) (CF r) v (AF r) (ZF r) (SF r) (TF r) (IF_ r) (DF r)
    (OF r) (registers8Bit r) (registers16Bit r)
    (registersSegmentRegisters r).

Definition set_ZF (v : Z) (r : CpuRegisters) : CpuRegisters :=
  Build_CpuRegisters (AL r) (CL r) (DL r) (BL r) (AH r) (CH r) (DH r) (BH r)
    (AX r) (CX r) (DX r) (BX r) (SP r) (BP r) (SI r) (DI r) (ES r) (CS r)
    (SS r) (DS r) (IP r) (CF r) (PF r) (AF r) v (SF r) (TF r) (IF_ r) (DF r)
    (OF r) (registers8Bit r) (registers16Bit r)
    (registersSegmentRegisters r).

Definition set_SF (v : Z) (r : CpuRegisters) : CpuRegisters :=
  Build_CpuRegisters (AL r) (CL r) (DL r) (BL r) (AH r) (CH r) (DH r) (BH r)
    (AX r) (CX r) (DX r) (BX r) (SP r) (BP r) (SI r) (DI r) (ES r) (CS r)
    (SS r) (DS r) (IP r) (CF r) (PF r) (AF r) (ZF r) v (TF r) (IF_ r) (DF r)
    (OF r) (registers8Bit r) (registers16Bit r)
    (registersSegmentRegisters r).

Definition set_DF (v : Z) (r : CpuRegisters) : CpuRegisters :=
  Build_CpuRegisters (AL r) (CL r) (DL r) (BL r) (AH r) (CH r) (DH r) (BH r)
    (AX r) (CX r) (DX r) (BX r) (SP r) (BP r) (SI r) (DI r) (ES r) (CS r)
    (SS r) (DS r) (IP r) (CF r) (PF r) (AF r) (ZF r) (SF r) (TF r) (IF_ r) v
    (OF r) (registers8Bit r) (registers16Bit r)
    (registersSegmentRegisters r).

Definition set_OF (v : Z) (r : CpuRegisters) : CpuRegisters :=
  Build_CpuRegisters (AL r) (CL r) (DL r) (BL r) (AH r) (CH r) (DH r) (BH r)
    (AX r) (CX r) (DX r) (BX r) (SP r) (BP r) (SI r) (DI r) (ES r) (CS r)
    (SS r) (DS r) (IP r) (CF r) (PF r) (AF r) (ZF r) (SF r) (TF r) (IF_ r)
    (DF r) v (registers8Bit r) (registers16Bit r)
    (registersSegmentRegisters r).

Definition set_registers8Bit (v : list Ptr8) (r : CpuRegisters)
  : CpuRegisters :=
  Build_CpuRegisters (AL r) (CL r) (DL r) (BL r) (AH r) (CH r) (DH r) (BH r)
    (AX r) (CX r) (DX r) (BX r) (SP r) (BP r) (SI r) (DI r) (ES r) (CS r)
    (SS r) (DS r) (IP r) (CF r) (PF r) (AF r) (ZF r) (SF r) (TF r) (IF_ r)
    (DF r) (OF r) v (registers16Bit r) (registersSegmentRegisters r).

Definition set_registers16Bit (v : list Ptr16) (r : CpuRegisters)
  : CpuRegisters :=
  Build_CpuRegisters (AL r) (CL r) (DL r) (BL r) (AH r) (CH r) (DH r) (BH r)
    (AX r) (CX r) (DX r) (BX r) (SP r) (BP r) (SI r) (DI r) (ES r) (CS r)
    (SS r) (DS r) (IP r) (CF r) (PF r) (AF r) (ZF r) (SF r) (TF r) (IF_ r)
    (DF r) (OF r) (registers8Bit r) v (registersSegmentRegisters r).

(** ** The core *)

Record CpuExecutionFlags : Type := {
  CS_OVERRIDE : Z;
  CS_OVERRIDE_ENABLE : bool;
  CR0 : Z
}.

(** The fields of the Go structure, without the I/O port controller and the
    table of handlers (a handler is a function on the core itself; dispatch
    is a parameter of [Step]).  [bus] and [memoryAccessController] hold the
    devices the Go fields point to; [locals8]/[locals16] are the heap cells of
    escaped local variables. *)
Record CpuCore : Type := {
  partId : Z;
  bus : bus.Bus;
  memoryAccessController : memmap.MemoryAccessController;
  registers : CpuRegisters;
  mode : Z;
  flags : CpuExecutionFlags;
  busId : Z;
  currentlyExecutingInstructionPointer : Z;
  lastExecutedInstructionPointer : Z;
  currentByteAtCodePointer : Z;
  locals8 : list Z;
  locals16 : list Z
}.

Definition set_bus (v : bus.Bus) (c : CpuCore) : CpuCore :=
  Build_CpuCore (partId c) v (memoryAccessController c) (registers c)
    (mode c) (flags c) (busId c) (currentlyExecutingInstructionPointer c)
    (lastExecutedInstructionPointer c) (currentByteAtCodePointer c)
    (locals8 c) (locals16 c).

Definition set_memoryAccessController (v : memmap.MemoryAccessController)
  (c : CpuCore) : CpuCore :=
  Build_CpuCore (partId c) (bus c) v (registers c) (mode c) (flags c)
    (busId c) (currentlyExecutingInstructionPointer c)
    (lastExecutedInstructionPointer c) (currentByteAtCodePointer c)
    (locals8 c) (locals16 c).

Definition set_registers (v : CpuRegisters) (c : CpuCore) : CpuCore :=
  Build_CpuCore (partId c) (bus c) (memoryAccessController c) v (mode c)
    (flags c) (busId c) (currentlyExecutingInstructionPointer c)
    (lastExecutedInstructionPointer c) (currentByteAtCodePointer c)
    (locals8 c) (locals16 c).

Definition set_mode (v : Z) (c : CpuCore) : CpuCore :=
  Build_CpuCore (partId c) (bus c) (memoryAccessController c) (registers c)
    v (flags c) (busId c) (currentlyExecutingInstructionPointer c)
    (lastExecutedInstructionPointer c) (currentByteAtCodePointer c)
    (locals8 c) (locals16 c).

Definition set_busId (v : Z) (c : CpuCore) : CpuCore :=
  Build_CpuCore (partId c) (bus c) (memoryAccessController c) (registers c)
    (mode c) (flags c) v (currentlyExecutingInstructionPointer c)
    (lastExecutedInstructionPointer c) (currentByteAtCodePointer c)
    (locals8 c) (locals16 c).

Definition set_currentlyExecutingInstructionPointer (v : Z) (c : CpuCore)
  : CpuCore :=
  Build_CpuCore (partId c) (bus c) (memoryAccessController c) (registers c)
    (mode c) (flags c) (busId c) v (lastExecutedInstructionPointer c)
    (currentByteAtCodePointer c) (locals8 c) (locals16 c).

Definition set_lastExecutedInstructionPointer (v : Z) (c : CpuCore)
  : CpuCore :=
  Build_CpuCore (partId c) (bus c) (memoryAccessController c) (registers c)
    (mode c) (flags c) (busId c) (currentlyExecutingInstructionPointer c) v
    (currentByteAtCodePointer c) (locals8 c) (locals16 c).

Definition set_currentByteAtCodePointer (v : Z) (c : CpuCore) : CpuCore :=
  Build_CpuCore (partId c) (bus c) (memoryAccessController c) (registers c)
    (mode c) (flags c) (busId c) (currentlyExecutingInstructionPointer c)
    (lastExecutedInstructionPointer c) v (locals8 c) (locals16 c).

Definition set_locals8 (v : list Z) (c : CpuCore) : CpuCore :=
  Build_CpuCore (partId c) (bus c) (memoryAccessController c) (registers c)
    (mode c) (flags c) (busId c) (currentlyExecutingInstructionPointer c)
    (lastExecutedInstructionPointer c) (currentByteAtCodePointer c) v
    (locals16 c).

Definition set_locals16 (v : list Z) (c : CpuCore) : CpuCore :=
  Build_CpuCore (partId c) (bus c) (memoryAccessController c) (registers c)
    (mode c) (flags c) (busId c) (currentlyExecutingInstructionPointer c)
    (lastExecutedInstructionPointer c) (currentByteAtCodePointer c)
    (locals8 c) v.

(** ** Running code on the core

    A method either returns, or the process ends in [log.Fatal], or it
    panics; each outcome carries the state of the core at that point. *)

Inductive Outcome (A : Type) : Type :=
| Returned (a : A) (c : CpuCore)
| Fatal (msg : string) (c : CpuCore)
| Panic (msg : string) (c : CpuCore).

Arguments Returned {A} a c.
Arguments Fatal {A} msg c.
Arguments Panic {A} msg c.

Definition final_state {A : Type} (o : Outcome A) : CpuCore :=
  match o with
  | Returned _ c => c
  | Fatal _ c => c
  | Panic _ c => c
  end.

Definition Exec (A : Type) : Type := CpuCore -> Outcome A.

Definition ret {A : Type} (a : A) : Exec A := fun c => Returned a c.

Definition bind {A B : Type} (m : Exec A) (k : A -> Exec B) : Exec B :=
  fun c =>
    match m c with
    | Returned a c' => k a c'
    | Fatal msg c' => Fatal msg c'
    | Panic msg c' => Panic msg c'
    end.

Declare Scope exec_scope.
Delimit Scope exec_scope with exec.
Bind Scope exec_scope with Exec.

Notation "x <- m ;; k" := (bind m (fun x => k))
  (at level 61, m at next level, right associativity) : exec_scope.
Notation "m ;; k" := (bind m (fun _ => k))
  (at level 61, right associativity) : exec_scope.

Open Scope exec_scope.

Definition gets {A : Type} (f : CpuCore -> A) : Exec A :=
  fun c => Returned (f c) c.

Definition modify (f : CpuCore -> CpuCore) : Exec unit :=
  fun c => Returned tt (f c).

Definition fatal {A : Type} (msg : string) : Exec A := fun c => Fatal msg c.

Definition panic {A : Type} (msg : string) : Exec A := fun c => Panic msg c.

Definition modify_registers (f : CpuRegisters -> CpuRegisters) : Exec unit :=
  modify (fun c => set_registers (f (registers c)) c).

Definition index_or_panic {A : Type} (l : list A) (i : Z) : Exec A :=
  match index l i with
  | Some a => ret a
  | None => panic "runtime error: index out of range"
  end.

(** ** Devices as seen from the core *)

(** [core.memoryAccessController.ReadAddr8(addr)] and its siblings. *)
Definition mem_ReadAddr8 (addr : Z) : Exec Z :=
  fun c =>
    let (v, m) := memmap.ReadAddr8 (memoryAccessController c) addr in
    Returned v (set_memoryAccessController m c).

Definition mem_ReadAddr16 (addr : Z) : Exec Z :=
  fun c =>
    let (v, m) := memmap.ReadAddr16 (memoryAccessController c) addr in
    Returned v (set_memoryAccessController m c).

Definition mem_WriteAddr8 (addr value : Z) : Exec unit :=
  modify (fun c =>
    set_memoryAccessController
      (memmap.WriteAddr8 (memoryAccessController c) addr value) c).

Definition mem_WriteAddr16 (addr value : Z) : Exec unit :=
  modify (fun c =>
    set_memoryAccessController
      (memmap.WriteAddr16 (memoryAccessController c) addr value) c).

(** Modelled from the spec: [SetIP]/[SetCS] of the memory accessor, which
    the handlers call; they are register-file operations. *)
Definition mem_SetIP (addr : Z) : Exec unit := modify_registers (set_IP addr).

Definition mem_SetCS (addr : Z) : Exec unit := modify_registers (set_CS addr).

Definition bus_SendMessage (m : bus.BusMessage) : Exec unit :=
  modify (fun c => set_bus (bus.SendMessage (bus c) m) c).

(** ** Pointers into the register file *)

Definition load8 (p : Ptr8) : Exec Z :=
  match p with
  | Field8 rAL => gets (fun c => AL (registers c))
  | Field8 rCL => gets (fun c => CL (registers c))
  | Field8 rDL => gets (fun c => DL (registers c))
  | Field8 rBL => gets (fun c => BL (registers c))
  | Field8 rAH => gets (fun c => AH (registers c))
  | Field8 rCH => gets (fun c => CH (registers c))
  | Field8 rDH => gets (fun c => DH (registers c))
  | Field8 rBH => gets (fun c => BH (registers c))
  | Cell8 n =>
      fun c =>
        match nth_error (locals8 c) n with
        | Some v => Returned v c
        | None => Panic "runtime error: invalid memory address" c
        end
  end.

Definition load16 (p : Ptr16) : Exec Z :=
  match p with
  | Field16 rAX => gets (fun c => AX (registers c))
  | Field16 rCX => gets (fun c => CX (registers c))
  | Field16 rDX => gets (fun c => DX (registers c))
  | Field16 rBX => gets (fun c => BX (registers c))
  | Field16 rSP => gets (fun c => SP (registers c))
  | Field16 rBP => gets (fun c => BP (registers c))
  | Field16 rSI => gets (fun c => SI (registers c))
  | Field16 rDI => gets (fun c => DI (registers c))
  | Cell16 n =>
      fun c =>
        match nth_error (locals16 c) n with
        | Some v => Returned v c
        | None => Panic "runtime error: invalid memory address" c
        end
  end.

(** [&destValue] for a fresh local [destValue]. *)
Definition new8 (v : Z) : Exec Ptr8 :=
  fun c =>
    Returned (Cell8 (List.length (locals8 c)))
      (set_locals8 (locals8 c ++ [v]) c).

Definition new16 (v : Z) : Exec Ptr16 :=
  fun c =>
    Returned (Cell16 (List.length (locals16 c)))
      (set_locals16 (locals16 c ++ [v]) c).

(** ** ModR/M *)

(** The structure behind [*ModRm]: the handlers and the core read its fields
    [mod], [reg] and [rm]; [mod] is written [mod_]. *)
Record ModRm : Type := {
  mod_ : Z;
  reg : Z;
  rm : Z
}.

(** Modelled from the spec: the three fields of a ModR/M byte, [mod] in bits
    7-6, [reg] in bits 5-3, [rm] in bits 2-0. *)
Definition decodeModRm (b : Z) : ModRm :=
  {| mod_ := Z.land (Z.shiftr b 6) 3;
     reg := Z.land (Z.shiftr b 3) 7;
     rm := Z.land b 7 |}.

(** ** Methods of the core (80386_cpu.go) *)

Section Core.

Variable common : Common.

(** Decoder of a memory operand and the register-name tables; their code is
    not part of the sources at hand. *)
Variable getAddressMode16 : ModRm -> Exec Z.
Variable index8ToString : Z -> string.
Variable index16ToString : Z -> string.

(** Dispatch of the opcode at [CS:IP] to its handler; returns a status. *)
Variable routeInstruction : Exec Z.

(** Lookup of a device on a bus by module id. *)
Variable FindSingleDevice : bus.Bus -> Z -> option Device.

Definition SetDeviceBusId (id : Z) : Exec unit := modify (set_busId id).

Definition SetCS (addr : Z) : Exec unit := modify_registers (set_CS addr).

Definition SetIP (addr : Z) : Exec unit := modify_registers (set_IP addr).

Definition GetIP : Exec Z := gets (fun c => IP (registers c)).

Definition GetCS : Exec Z := gets (fun c => CS (registers c)).

Definition IncrementIP : Exec unit :=
  modify_registers (fun r => set_IP (uint16 (IP r + 1)) r).

Definition Reset : Exec unit :=
  modify_registers (set_CS 0xF000);;
  modify_registers (set_IP 0xFFF0);;
  bus_SendMessage
    {| bus.Subject := MESSAGE_GLOBAL_LOCK_BIOS_MEM_REGION common;
       bus.Data := [] |}.

Definition EnterMode (mode : Z) : Exec unit :=
  modify (set_mode mode);;
  bus_SendMessage
    {| bus.Subject := MESSAGE_GLOBAL_CPU_MODESWITCH common;
       bus.Data := [mode] |}.

Definition OnReceiveMessage (message : bus.BusMessage) : Exec unit :=
  if bus.Subject message =? MESSAGE_REQUEST_CPU_MODESWITCH common then
    m <- index_or_panic (bus.Data message) 0;;
    EnterMode m
  else ret tt.

(** [uint32(core.registers.CS<<4 + core.registers.IP)]: shift and sum are
    16-bit operations, the conversion applies to their result. *)
Definition code_pointer (r : CpuRegisters) : Z :=
  uint32 (uint16 (uint16 (Z.shiftl (CS r) 4) + IP r)).

Definition GetCurrentCodePointer : Exec Z :=
  gets (fun c => code_pointer (registers c)).

Definition GetCurrentlyExecutingInstructionPointer : Exec Z :=
  gets currentlyExecutingInstructionPointer.

Definition loop_diagnostic : string :=
  "CPU appears to be in a loop! Did you forget to increment the IP register?".

Definition Step : Exec unit :=
  cp <- GetCurrentCodePointer;;
  modify (set_currentlyExecutingInstructionPointer cp);;
  cur <- gets currentlyExecutingInstructionPointer;;
  last <- gets lastExecutedInstructionPointer;;
  (if cur =? last then fatal loop_diagnostic else ret tt);;
  status <- routeInstruction;;
  (if negb (status =? 0) then panic "0" else ret tt);;
  cur' <- gets currentlyExecutingInstructionPointer;;
  modify (set_lastExecutedInstructionPointer cur').



Definition BuildAddress (segment address : Z) : Z :=
  uint32 (uint16 (uint16 (Z.shiftl segment 4) + address)).

Definition readRm8 (modrm : ModRm) : Exec (Ptr8 * string) :=
  if mod_ modrm =? 3 then
    t <- gets (fun c => registers8Bit (registers c));;
    dest <- index_or_panic t (rm modrm);;
    ret (dest, index8ToString (rm modrm))
  else
    addressMode <- getAddressMode16 modrm;;
    destValue <- mem_ReadAddr8 (uint32 addressMode);;
    p <- new8 destValue;;
    ret (p, "rm/8"%string).

Definition readRm16 (modrm : ModRm) : Exec (Ptr16 * string) :=
  if mod_ modrm =? 3 then
    t <- gets (fun c => registers16Bit (registers c));;
    dest <- index_or_panic t (rm modrm);;
    ret (dest, index16ToString (rm modrm))
  else
    addressMode <- getAddressMode16 modrm;;
    destValue <- mem_ReadAddr16 (uint32 addressMode);;
    p <- new16 destValue;;
    ret (p, "rm/16"%string).

Definition readR8 (modrm : ModRm) : Exec (Ptr8 * string) :=
  t <- gets (fun c => registers8Bit (registers c));;
  dest <- index_or_panic t (reg modrm);;
  ret (dest, index8ToString (reg modrm)).

Definition readR16 (modrm : ModRm) : Exec (Ptr16 * string) :=
  t <- gets (fun c => registers16Bit (registers c));;
  dest <- index_or_panic t (reg modrm);;
  ret (dest, index16ToString (reg modrm)).

(** [registers8Bit[i] = value]: the table entry is made to point where
    [value] points. *)
Definition assign8 (i : Z) (value : Ptr8) : Exec unit :=
  t <- gets (fun c => registers8Bit (registers c));;
  match update t i value with
  | Some t' => modify_registers (set_registers8Bit t')
  | None => panic "runtime error: index out of range"
  end.

Definition assign16 (i : Z) (value : Ptr16) : Exec unit :=
  t <- gets (fun c => registers16Bit (registers c));;
  match update t i value with
  | Some t' => modify_registers (set_registers16Bit t')
  | None => panic "runtime error: index out of range"
  end.

Definition writeRm8 (modrm : ModRm) (value : Ptr8) : Exec unit :=
  if mod_ modrm =? 3 then assign8 (rm modrm) value
  else
    addressMode <- getAddressMode16 modrm;;
    v <- load8 value;;
    mem_WriteAddr8 (uint32 addressMode) v.

Definition writeRm16 (modrm : ModRm) (value : Ptr16) : Exec unit :=
  if mod_ modrm =? 3 then assign16 (rm modrm) value
  else
    addressMode <- getAddressMode16 modrm;;
    v <- load16 value;;
    mem_WriteAddr16 (uint32 addressMode) v.

Definition writeR8 (modrm : ModRm) (value : Ptr8) : Exec unit :=
  assign8 (reg modrm) value.

Definition writeR16 (modrm : ModRm) (value : Ptr16) : Exec unit :=
  assign16 (reg modrm) value.

(** [Init] looks the memory controller and the I/O port controller up on
    the bus; either type assertion panics when the lookup gives no device
    or a device of another type.  The core has no field for the port
    controller here: [Init] returns the one it found. *)
Definition Init (b : bus.Bus) : Exec io.IOPortAccessController :=
  modify (set_bus b);;
  dev1 <-
    match FindSingleDevice b (MODULE_MEMORY_ACCESS_CONTROLLER common) with
    | Some (MemoryAccessControllerDevice m) => ret m
    | _ => panic "interface conversion"
    end;;
  modify (set_memoryAccessController dev1);;
  dev2 <-
    match FindSingleDevice b (MODULE_IO_PORT_ACCESS_CONTROLLER common) with
    | Some (IOPortAccessControllerDevice d) => ret d
    | _ => panic "interface conversion"
    end;;
  EnterMode (REAL_MODE common);; Reset;; ret dev2.

End Core.

(** [New80386CPU]: zeroed registers and the three index tables.  The device
    pointers are nil until [Init]; here they are an empty bus and a zeroed
    memory. *)
Definition New80386CPU (common : Common) : CpuCore :=
  {| partId := MODULE_PRIMARY_PROCESSOR common;
     bus := {| bus.sent := [] |};
     memoryAccessController :=
       {| memmap.ram := fun _ => 0; memmap.accesses := [] |};
     registers :=
       Build_CpuRegisters 0 0 0 0 0 0 0 0 0 0 0 0 0 0 0 0 0 0 0 0 0
         0 0 0 0 0 0 0 0 0
         [Field8 rAL; Field8 rCL; Field8 rDL; Field8 rBL;
          Field8 rAH; Field8 rCH; Field8 rDH; Field8 rBH]
         [Field16 rAX; Field16 rCX; Field16 rDX; Field16 rBX;
          Field16 rSP; Field16 rBP; Field16 rSI; Field16 rDI]
         [FieldSeg rES; FieldSeg rCS; FieldSeg rSS; FieldSeg rDS];
     mode := 0;
     flags := {| CS_OVERRIDE := 0; CS_OVERRIDE_ENABLE := false; CR0 := 0 |};
     busId := 0;
     currentlyExecutingInstructionPointer := 0;
     lastExecutedInstructionPointer := 0;
     currentByteAtCodePointer := 0;
     locals8 := [];
     locals16 := [] |}.

(** ** Opcode handlers (package cpu) *)

(** Modelled from the spec: the helper [getMSB], the most significant bit
    of a byte. *)
Definition getMSB (x : Z) : Z := Z.land (Z.shiftr x 7) 1.

(** Modelled from the spec: the helper [getBitValue], bit [i] of a byte. *)
Definition getBitValue (x i : Z) : Z := Z.land (Z.shiftr x i) 1.

(** Modelled from the spec: [consumeModRm] of package cpu, which reads the
    ModR/M byte, the byte that follows the opcode, and splits it. *)
Definition consumeModRm : Exec ModRm :=
  cp <- GetCurrentCodePointer;;
  b <- mem_ReadAddr8 (uint32 (cp + 1));;
  ret (decodeModRm b).

Definition INSTR_NOP : Exec unit :=
  ip <- GetIP;;
  mem_SetIP (uint16 (uint16 (ip + 1))).

Definition INSTR_CLI : Exec unit :=
  ip <- GetIP;;
  mem_SetIP (uint16 (uint16 (ip + 1))).

Definition INSTR_CLD : Exec unit :=
  modify_registers (set_DF 0);;
  ip <- GetIP;;
  mem_SetIP (uint16 (uint16 (ip + 1))).

(** [for i := uint8(0); i < 8; i++ { PF ^= uint16(getBitValue(tmp, i)) }] *)
Definition parity_loop (tmp pf : Z) : Z :=
  fold_left (fun pf i => Z.lxor pf (uint16 (getBitValue tmp i)))
    [0; 1; 2; 3; 4; 5; 6; 7] pf.

Definition INSTR_TEST_AL : Exec unit :=
  cp <- GetCurrentCodePointer;;
  val <- mem_ReadAddr8 (uint32 (cp + 1));;
  val2 <- gets (fun c => AL (registers c));;
  let tmp := Z.land val val2 in
  modify_registers (set_SF (uint16 (getMSB tmp)));;
  (if tmp =? 0 then modify_registers (set_ZF 1)
   else modify_registers (set_ZF 0));;
  modify_registers (set_PF 1);;
  modify_registers (fun r => set_PF (parity_loop tmp (PF r)) r);;
  modify_registers (set_CF 0);;
  modify_registers (set_OF 0);;
  ip <- GetIP;;
  mem_SetIP (uint16 (uint16 (ip + 2))).

(** The two operands are read through the 16-bit table at [modrm.mod] and
    [modrm.reg] into locals, and the locals are exchanged. *)
Definition INSTR_XCHG : Exec unit :=
  modrm <- consumeModRm;;
  t <- gets (fun c => registers16Bit (registers c));;
  p1 <- index_or_panic t (mod_ modrm);;
  reg1 <- load16 p1;;
  p2 <- index_or_panic t (reg modrm);;
  reg2 <- load16 p2;;
  let tmp := reg2 in
  let reg2 := reg1 in
  let reg1 := tmp in
  ip <- GetIP;;
  mem_SetIP (uint16 (uint16 (ip + 2))).

Definition INSTR_CMP : Exec unit :=
  op <- gets currentByteAtCodePointer;;
  (if 0x3C =? op then
     cp <- GetCurrentCodePointer;;
     src <- mem_ReadAddr8 (uint32 (cp + 1));;
     dst <- gets (fun c => AL (registers c));;
     if src =? dst then
       modify_registers (set_ZF 1);;
       modify_registers (set_CF 0)
     else if dst <? src then
       modify_registers (set_ZF 0);;
       modify_registers (set_CF 1)
     else if dst >? src then
       modify_registers (set_ZF 0);;
       modify_registers (set_CF 0)
     else ret tt
   else fatal "Unrecognised CMP instruction!");;
  ip <- GetIP;;
  mem_SetIP (uint16 (uint16 (ip + 2))).

Definition INSTR_JMP_FAR_PTR16 : Exec unit :=
  cp <- GetCurrentCodePointer;;
  destAddr <- mem_ReadAddr16 (uint32 (cp + 1));;
  cp' <- GetCurrentCodePointer;;
  segment <- mem_ReadAddr16 (uint32 (cp' + 3));;
  mem_SetCS segment;;
  mem_SetIP destAddr.

Definition INSTR_JMP_NEAR_REL16 : Exec unit :=
  cp <- GetCurrentCodePointer;;
  w <- mem_ReadAddr16 (uint32 (cp + 1));;
  let offset := int16 w in
  ip <- gets (fun c => IP (registers c));;
  let destAddr := int16 (uint16 (ip + 3)) in
  let destAddr := int16 (destAddr + int16 offset) in
  mem_SetIP (uint16 destAddr).

(** [int16(ReadAddr8(...))] converts an unsigned byte: the offset lies in
    [0, 255]. *)
Definition INSTR_JZ_SHORT_REL8 : Exec unit :=
  cp <- GetCurrentCodePointer;;
  b <- mem_ReadAddr8 (uint32 (cp + 1));;
  let offset := int16 b in
  ip <- gets (fun c => IP (registers c));;
  let destAddr := int16 (uint16 (ip + 2)) in
  let destAddr := int16 (destAddr + int16 offset) in
  zf <- gets (fun c => ZF (registers c));;
  if zf =? 0 then mem_SetIP (uint16 destAddr)
  else
    ip' <- GetIP;;
    mem_SetIP (uint16 (uint16 (ip' + 2))).

Definition INSTR_JNZ_SHORT_REL8 : Exec unit :=
  cp <- GetCurrentCodePointer;;
  b <- mem_ReadAddr8 (uint32 (cp + 1));;
  let offset := int16 b in
  ip <- gets (fun c => IP (registers c));;
  let destAddr := int16 (uint16 (ip + 2)) in
  let destAddr := int16 (destAddr + offset) in
  zf <- gets (fun c => ZF (registers c));;
  if negb (zf =? 0) then mem_SetIP (uint16 destAddr)
  else
    ip' <- GetIP;;
    mem_SetIP (uint16 (uint16 (ip' + 2))).

Definition INSTR_JCXZ_SHORT_REL8 : Exec unit :=
  cp <- GetCurrentCodePointer;;
  b <- mem_ReadAddr8 (uint32 (cp + 1));;
  let offset := int16 b in
  ip <- gets (fun c => IP (registers c));;
  let destAddr := int16 (uint16 (ip + 2)) in
  let destAddr := int16 (destAddr + int16 offset) in
  cx <- gets (fun c => CX (registers c));;
  if cx =? 0 then mem_SetIP (uint16 destAddr)
  else
    ip' <- GetIP;;
    mem_SetIP (uint16 (uint16 (ip' + 2))).

(** ** Parts used to run the core on concrete inputs *)

(** Modelled from the spec: dispatch as the step driver describes it: the
    byte at [CS:IP] becomes the current opcode, its handler is looked up in
    the table, a missing handler is fatal, the handler is invoked. *)
Definition dispatch (opCodeMap : Z -> option (Exec unit)) : Exec Z :=
  cp <- GetCurrentCodePointer;;
  b <- mem_ReadAddr8 (uint32 cp);;
  modify (set_currentByteAtCodePointer b);;
  match opCodeMap b with
  | Some handler => handler;; ret 0
  | None => fatal "Unknown opcode"
  end.

(** The entries of [mapOpCodes] whose handlers are defined above. *)
Definition opCodeMap_jumps_and_flags (op : Z) : option (Exec unit) :=
  if op =? 0xEA then Some INSTR_JMP_FAR_PTR16
  else if op =? 0xE9 then Some INSTR_JMP_NEAR_REL16
  else if op =? 0xE3 then Some INSTR_JCXZ_SHORT_REL8
  else if op =? 0x74 then Some INSTR_JZ_SHORT_REL8
  else if op =? 0x75 then Some INSTR_JNZ_SHORT_REL8
  else if op =? 0xFA then Some INSTR_CLI
  else if op =? 0xFC then Some INSTR_CLD
  else if op =? 0xA8 then Some INSTR_TEST_AL
  else if op =? 0x3C then Some INSTR_CMP
  else if op =? 0x87 then Some INSTR_XCHG
  else if op =? 0x90 then Some INSTR_NOP
  else None.

(** Modelled from the spec: the 16-bit effective-address table of the
    ModR/M decoder for [mod] other than 3, the displacement following the
    ModR/M byte, the offset wrapping modulo 2^16. *)
Definition getAddressMode16_table (modrm : ModRm) : Exec Z :=
  r <- gets registers;;
  cp <- GetCurrentCodePointer;;
  let base :=
    if rm modrm =? 0 then BX r + SI r
    else if rm modrm =? 1 then BX r + DI r
    else if rm modrm =? 2 then BP r + SI r
    else if rm modrm =? 3 then BP r + DI r
    else if rm modrm =? 4 then SI r
    else if rm modrm =? 5 then DI r
    else if rm modrm =? 6 then BP r
    else BX r in
  if mod_ modrm =? 0 then
    if rm modrm =? 6 then mem_ReadAddr16 (uint32 (cp + 2))
    else ret (uint16 base)
  else if mod_ modrm =? 1 then
    d <- mem_ReadAddr8 (uint32 (cp + 2));;
    ret (uint16 (base + (if d <? 2 ^ 7 then d else d - 2 ^ 8)))
  else
    d <- mem_ReadAddr16 (uint32 (cp + 2));;
    ret (uint16 (base + d)).

(** Modelled from the spec: the register names in index order. *)
Definition index8ToString_names (i : Z) : string :=
  nth (Z.to_nat i) ["AL"; "CL"; "DL"; "BL"; "AH"; "CH"; "DH"; "BH"]%string
      "?"%string.

Definition index16ToString_names (i : Z) : string :=
  nth (Z.to_nat i) ["AX"; "CX"; "DX"; "BX"; "SP"; "BP"; "SI"; "DI"]%string
      "?"%string.

(** One assignment of the identifiers of package common. *)
Definition common_ids : Common :=
  {| MODULE_PRIMARY_PROCESSOR := 1;
     MODULE_MEMORY_ACCESS_CONTROLLER := 2;
     MODULE_IO_PORT_ACCESS_CONTROLLER := 3;
     REAL_MODE := 0;
     PROTECTED_MODE := 1;
     MESSAGE_REQUEST_CPU_MODESWITCH := 10;
     MESSAGE_GLOBAL_CPU_MODESWITCH := 11;
     MESSAGE_GLOBAL_LOCK_BIOS_MEM_REGION := 12 |}.

(** A memory holding [bytes] from address [base] on and zero elsewhere. *)
Definition image (base : Z) (bytes : list Z) : memmap.MemoryAccessController :=
  {| memmap.ram := fun a =>
       if (base <=? a) && (a <? base + Z.of_nat (List.length bytes))
       then nth (Z.to_nat (a - base)) bytes 0 else 0;
     memmap.accesses := [] |}.

(** A registry holding the memory controller [m] and a port space of
    zeroes under their module ids. *)
Definition attached_devices (m : memmap.MemoryAccessController)
  (b : bus.Bus) (id : Z) : option Device :=
  if id =? MODULE_MEMORY_ACCESS_CONTROLLER common_ids then
    Some (MemoryAccessControllerDevice m)
  else if id =? MODULE_IO_PORT_ACCESS_CONTROLLER common_ids then
    Some (IOPortAccessControllerDevice
            {| io.ports := fun _ => 0; io.accesses := [] |})
  else None.

(** The core after construction and [Init] on an empty bus. *)
Definition powered_on (m : memmap.MemoryAccessController) : CpuCore :=
  final_state
    (Init common_ids (attached_devices m) {| bus.sent := [] |}
       (New80386CPU common_ids)).

(** The core with [CS:IP] placed at [cs:ip]. *)
Definition placed_at (cs ip : Z) (c : CpuCore) : CpuCore :=
  set_registers (set_IP ip (set_CS cs (registers c))) c.

(** [74 02] at [0000:0200] with the given ZF. *)
Definition jz_at_0200 (zf : Z) : CpuCore :=
  let c := placed_at 0 0x200 (powered_on (image 0x200 [0x74; 0x02])) in
  set_registers (set_ZF zf (registers c)) c.

(** [75 02] at [0000:0200] with the given ZF. *)
Definition jnz_at_0200 (zf : Z) : CpuCore :=
  let c := placed_at 0 0x200 (powered_on (image 0x200 [0x75; 0x02])) in
  set_registers (set_ZF zf (registers c)) c.

(** [87 D8] (XCHG AX, BX) at [0000:0100] with AX = 1 and BX = 2. *)
Definition xchg_ax_bx : CpuCore :=
  let c := placed_at 0 0x100 (powered_on (image 0x100 [0x87; 0xD8])) in
  set_currentByteAtCodePointer 0x87
    (set_registers (set_BX 2 (set_AX 1 (registers c))) c).

(** [3C 05] (CMP AL, 5) at [0000:0100] with the given AL. *)
Definition cmp_al_5 (al : Z) : CpuCore :=
  let c := placed_at 0 0x100 (powered_on (image 0x100 [0x3C; 0x05])) in
  set_currentByteAtCodePointer 0x3C
    (set_registers (set_AL al (registers c)) c).

(** [90] (NOP) at [0000:0100]. *)
Definition nop_at_0100 : CpuCore :=
  placed_at 0 0x100 (powered_on (image 0x100 [0x90])).

(** The request a device sends to have the core switch mode. *)
Definition modeswitch_request (common : Common) (m : Z) : bus.BusMessage :=
  {| bus.Subject := MESSAGE_REQUEST_CPU_MODESWITCH common;
     bus.Data := [m] |}.

(** ** Notions the properties are stated with *)

(** The immediate byte of the instruction at [CS:IP], as the handlers
    address it. *)
Definition imm8_of (core : CpuCore) : Z :=
  memmap.byte_at (memoryAccessController core)
    (uint32 (code_pointer (registers core) + 1)).

(** The values of a byte. *)
Definition all_bytes : list Z := map Z.of_nat (seq 0 256).

(** Number of bits set among the low eight. *)
Definition popcount8 (x : Z) : nat :=
  List.length (filter (Z.testbit x) [0; 1; 2; 3; 4; 5; 6; 7]).

(** The Intel parity flag of a result: 1 when the low byte has an even
    number of bits set. *)
Definition parity_flag (x : Z) : Z := if Nat.even (popcount8 x) then 1 else 0.

(** The sign flag of an 8-bit result: its bit 7. *)
Definition sign_flag8 (x : Z) : Z := if Z.testbit x 7 then 1 else 0.

(** The 16-bit general registers in index order, and the flag words. *)
Definition general_registers (r : CpuRegisters) : list Z :=
  [AX r; CX r; DX r; BX r; SP r; BP r; SI r; DI r].

Definition flag_words (r : CpuRegisters) : list Z :=
  [CF r; PF r; AF r; ZF r; SF r; TF r; IF_ r; DF r; OF r].

(** [E9 FD FF] at [0000:0100], a near jump onto itself, after one step. *)
Definition stuck_at_0100 : CpuCore :=
  final_state
    (Step (dispatch opCodeMap_jumps_and_flags)
       (placed_at 0 0x100 (powered_on (image 0x100 [0xE9; 0xFD; 0xFF])))).

(** [EA 00 01 00 10] (JMP FAR 1000:0100) at [0000:0100], after one step:
    CS:IP is 1000:0100 and 0x100 is recorded as last executed. *)
Definition after_far_jump_to_1000_0100 : CpuCore :=
  final_state
    (Step (dispatch opCodeMap_jumps_and_flags)
       (placed_at 0 0x100
          (powered_on (image 0x100 [0xEA; 0x00; 0x01; 0x00; 0x10])))).

(** Unfolds the monadic plumbing of a handler. *)
Ltac run_exec :=
  cbv [bind ret gets modify modify_registers fatal panic
       mem_ReadAddr8 mem_ReadAddr16 mem_SetIP mem_SetCS GetIP
       GetCurrentCodePointer memmap.ReadAddr8 memmap.ReadAddr16
       index_or_panic consumeModRm];
  cbn [registers memoryAccessController set_registers
       set_memoryAccessController currentByteAtCodePointer].

(** ** Further notions and inputs *)

(** The 8-bit registers in index order, and the segment registers. *)
Definition byte_registers (r : CpuRegisters) : list Z :=
  [AL r; CL r; DL r; BL r; AH r; CH r; DH r; BH r].

Definition segment_registers (r : CpuRegisters) : list Z :=
  [ES r; CS r; SS r; DS r].



(** [74 02] at address 0x200 with BX = 0x200 and AX = 0x1234, so that the
    operand [[BX]] (ModR/M byte 07) names that address. *)
Definition bx_points_at_0200 : CpuCore :=
  let c := jz_at_0200 1 in
  set_registers (set_AX 0x1234 (set_BX 0x200 (registers c))) c.

(** The handlers defined above, in the order of [mapOpCodes]. *)
Definition handlers_jumps_and_flags : list (Exec unit) :=
  [INSTR_JMP_FAR_PTR16; INSTR_JMP_NEAR_REL16; INSTR_JCXZ_SHORT_REL8;
   INSTR_JZ_SHORT_REL8; INSTR_JNZ_SHORT_REL8; INSTR_CLI; INSTR_CLD;
   INSTR_TEST_AL; INSTR_CMP; INSTR_XCHG; INSTR_NOP].

(** What lies outside the register file and the access log is the same in
    [c] and [c']. *)
Definition same_outside_registers (c c' : CpuCore) : Prop :=
  partId c' = partId c /\
  bus c' = bus c /\
  mode c' = mode c /\
  flags c' = flags c /\
  busId c' = busId c /\
  currentlyExecutingInstructionPointer c' =
    currentlyExecutingInstructionPointer c /\
  lastExecutedInstructionPointer c' = lastExecutedInstructionPointer c /\
  currentByteAtCodePointer c' = currentByteAtCodePointer c /\
  memmap.ram (memoryAccessController c') =
    memmap.ram (memoryAccessController c).

(** [3D 05] at [0000:0100]: an opcode [INSTR_CMP] does not know. *)
Definition cmp_3d_at_0100 : CpuCore :=
  set_currentByteAtCodePointer 0x3D
    (placed_at 0 0x100 (powered_on (image 0x100 [0x3D; 0x05]))).

(** ** Stores through pointers

    Updates of the remaining register fields, and [*p = v] for a pointer
    [p] into the register file or to a heap cell. *)

Definition set_CL (v : Z) (r : CpuRegisters) : CpuRegisters :=
  Build_CpuRegisters (AL r) v (DL r) (BL r) (AH r) (CH r) (DH r) (BH r)
    (AX r) (CX r) (DX r) (BX r) (SP r) (BP r) (SI r) (DI r) (ES r) (CS r)
    (SS r) (DS r) (IP r) (CF r) (PF r) (AF r) (ZF r) (SF r) (TF r) (IF_ r)
    (DF r) (OF r) (registers8Bit r) (registers16Bit r)
    (registersSegmentRegisters r).

Definition set_DL (v : Z) (r : CpuRegisters) : CpuRegisters :=
  Build_CpuRegisters (AL r) (CL r) v (BL r) (AH r) (CH r) (DH r) (BH r)
    (AX r) (CX r) (DX r) (BX r) (SP r) (BP r) (SI r) (DI r) (ES r) (CS r)
    (SS r) (DS r) (IP r) (CF r) (PF r) (AF r) (ZF r) (SF r) (TF r) (IF_ r)
    (DF r) (OF r) (registers8Bit r) (registers16Bit r)
    (registersSegmentRegisters r).

Definition set_BL (v : Z) (r : CpuRegisters) : CpuRegisters :=
  Build_CpuRegisters (AL r) (CL r) (DL r) v (AH r) (CH r) (DH r) (BH r)
    (AX r) (CX r) (DX r) (BX r) (SP r) (BP r) (SI r) (DI r) (ES r) (CS r)
    (SS r) (DS r) (IP r) (CF r) (PF r) (AF r) (ZF r) (SF r) (TF r) (IF_ r)
    (DF r) (OF r) (registers8Bit r) (registers16Bit r)
    (registersSegmentRegisters r).

Definition set_AH (v : Z) (r : CpuRegisters) : CpuRegisters :=
  Build_CpuRegisters (AL r) (CL r) (DL r) (BL r) v (CH r) (DH r) (BH r)
    (AX r) (CX r) (DX r) (BX r) (SP r) (BP r) (SI r) (DI r) (ES r) (CS r)
    (SS r) (DS r) (IP r) (CF r) (PF r) (AF r) (ZF r) (SF r) (TF r) (IF_ r)
    (DF r) (OF r) (registers8Bit r) (registers16Bit r)
    (registersSegmentRegisters r).

Definition set_CH (v : Z) (r : CpuRegisters) : CpuRegisters :=
  Build_CpuRegisters (AL r) (CL r) (DL r) (BL r) (AH r) v (DH r) (BH r)
    (AX r) (CX r) (DX r) (BX r) (SP r) (BP r) (SI r) (DI r) (ES r) (CS r)
    (SS r) (DS r) (IP r) (CF r) (PF r) (AF r) (ZF r) (SF r) (TF r) (IF_ r)
    (DF r) (OF r) (registers8Bit r) (registers16Bit r)
    (registersSegmentRegisters r).

Definition set_DH (v : Z) (r : CpuRegisters) : CpuRegisters :=
  Build_CpuRegisters (AL r) (CL r) (DL r) (BL r) (AH r) (CH r) v (BH r)
    (AX r) (CX r) (DX r) (BX r) (SP r) (BP r) (SI r) (DI r) (ES r) (CS r)
    (SS r) (DS r) (IP r) (CF r) (PF r) (AF r) (ZF r) (SF r) (TF r) (IF_ r)
    (DF r) (OF r) (registers8Bit r) (registers16Bit r)
    (registersSegmentRegisters r).

Definition set_BH (v : Z) (r : CpuRegisters) : CpuRegisters :=
  Build_CpuRegisters (AL r) (CL r) (DL r) (BL r) (AH r) (CH r) (DH r) v
    (AX r) (CX r) (DX r) (BX r) (SP r) (BP r) (SI r) (DI r) (ES r) (CS r)
    (SS r) (DS r) (IP r) (CF r) (PF r) (AF r) (ZF r) (SF r) (TF r) (IF_ r)
    (DF r) (OF r) (registers8Bit r) (registers16Bit r)
    (registersSegmentRegisters r).

Definition set_CX (v : Z) (r : CpuRegisters) : CpuRegisters :=
  Build_CpuRegisters (AL r) (CL r) (DL r) (BL r) (AH r) (CH r) (DH r) (BH r)
    (AX r) v (DX r) (BX r) (SP r) (BP r) (SI r) (DI r) (ES r) (CS r) (SS r)
    (DS r) (IP r) (CF r) (PF r) (AF r) (ZF r) (SF r) (TF r) (IF_ r) (DF r)
    (OF r) (registers8Bit r) (registers16Bit r)
    (registersSegmentRegisters r).

Definition set_DX (v : Z) (r : CpuRegisters) : CpuRegisters :=
  Build_CpuRegisters (AL r) (CL r) (DL r) (BL r) (AH r) (CH r) (DH r) (BH r)
    (AX r) (CX r) v (BX r) (SP r) (BP r) (SI r) (DI r) (ES r) (CS r) (SS r)
    (DS r) (IP r) (CF r) (PF r) (AF r) (ZF r) (SF r) (TF r) (IF_ r) (DF r)
    (OF r) (registers8Bit r) (registers16Bit r)
    (registersSegmentRegisters r).

Definition set_SP (v : Z) (r : CpuRegisters) : CpuRegisters :=
  Build_CpuRegisters (AL r) (CL r) (DL r) (BL r) (AH r) (CH r) (DH r) (BH r)
    (AX r) (CX r) (DX r) (BX r) v (BP r) (SI r) (DI r) (ES r) (CS r) (SS r)
    (DS r) (IP r) (CF r) (PF r) (AF r) (ZF r) (SF r) (TF r) (IF_ r) (DF r)
    (OF r) (registers8Bit r) (registers16Bit r)
    (registersSegmentRegisters r).

Definition set_BP (v : Z) (r : CpuRegisters) : CpuRegisters :=
  Build_CpuRegisters (AL r) (CL r) (DL r) (BL r) (AH r) (CH r) (DH r) (BH r)
    (AX r) (CX r) (DX r) (BX r) (SP r) v (SI r) (DI r) (ES r) (CS r) (SS r)
    (DS r) (IP r) (CF r) (PF r) (AF r) (ZF r) (SF r) (TF r) (IF_ r) (DF r)
    (OF r) (registers8Bit r) (registers16Bit r)
    (registersSegmentRegisters r).

Definition set_SI (v : Z) (r : CpuRegisters) : CpuRegisters :=
  Build_CpuRegisters (AL r) (CL r) (DL r) (BL r) (AH r) (CH r) (DH r) (BH r)
    (AX r) (CX r) (DX r) (BX r) (SP r) (BP r) v (DI r) (ES r) (CS r) (SS r)
    (DS r) (IP r) (CF r) (PF r) (AF r) (ZF r) (SF r) (TF r) (IF_ r) (DF r)
    (OF r) (registers8Bit r) (registers16Bit r)
    (registersSegmentRegisters r).

Definition set_DI (v : Z) (r : CpuRegisters) : CpuRegisters :=
  Build_CpuRegisters (AL r) (CL r) (DL r) (BL r) (AH r) (CH r) (DH r) (BH r)
    (AX r) (CX r) (DX r) (BX r) (SP r) (BP r) (SI r) v (ES r) (CS r) (SS r)
    (DS r) (IP r) (CF r) (PF r) (AF r) (ZF r) (SF r) (TF r) (IF_ r) (DF r)
    (OF r) (registers8Bit r) (registers16Bit r)
    (registersSegmentRegisters r).

Definition set_ES (v : Z) (r : CpuRegisters) : CpuRegisters :=
  Build_CpuRegisters (AL r) (CL r) (DL r) (BL r) (AH r) (CH r) (DH r) (BH r)
    (AX r) (CX r) (DX r) (BX r) (SP r) (BP r) (SI r) (DI r) v (CS r) (SS r)
    (DS r) (IP r) (CF r) (PF r) (AF r) (ZF r) (SF r) (TF r) (IF_ r) (DF r)
    (OF r) (registers8Bit r) (registers16Bit r)
    (registersSegmentRegisters r).

Definition set_SS (v : Z) (r : CpuRegisters) : CpuRegisters :=
  Build_CpuRegisters (AL r) (CL r) (DL r) (BL r) (AH r) (CH r) (DH r) (BH r)
    (AX r) (CX r) (DX r) (BX r) (SP r) (BP r) (SI r) (DI r) (ES r) (CS r) v
    (DS r) (IP r) (CF r) (PF r) (AF r) (ZF r) (SF r) (TF r) (IF_ r) (DF r)
    (OF r) (registers8Bit r) (registers16Bit r)
    (registersSegmentRegisters r).

Definition set_DS (v : Z) (r : CpuRegisters) : CpuRegisters :=
  Build_CpuRegisters (AL r) (CL r) (DL r) (BL r) (AH r) (CH r) (DH r) (BH r)
    (AX r) (CX r) (DX r) (BX r) (SP r) (BP r) (SI r) (DI r) (ES r) (CS r)
    (SS r) v (IP r) (CF r) (PF r) (AF r) (ZF r) (SF r) (TF r) (IF_ r) (DF r)
    (OF r) (registers8Bit r) (registers16Bit r)
    (registersSegmentRegisters r).

Definition store8 (p : Ptr8) (v : Z) : Exec unit :=
  match p with
  | Field8 rAL => modify_registers (set_AL v)
  | Field8 rCL => modify_registers (set_CL v)
  | Field8 rDL => modify_registers (set_DL v)
  | Field8 rBL => modify_registers (set_BL v)
  | Field8 rAH => modify_registers (set_AH v)
  | Field8 rCH => modify_registers (set_CH v)
  | Field8 rDH => modify_registers (set_DH v)
  | Field8 rBH => modify_registers (set_BH v)
  | Cell8 n =>
      fun c =>
        match update_nat (locals8 c) n v with
        | Some l => Returned tt (set_locals8 l c)
        | None => Panic "runtime error: invalid memory address" c
        end
  end.

Definition store16 (p : Ptr16) (v : Z) : Exec unit :=
  match p with
  | Field16 rAX => modify_registers (set_AX v)
  | Field16 rCX => modify_registers (set_CX v)
  | Field16 rDX => modify_registers (set_DX v)
  | Field16 rBX => modify_registers (set_BX v)
  | Field16 rSP => modify_registers (set_SP v)
  | Field16 rBP => modify_registers (set_BP v)
  | Field16 rSI => modify_registers (set_SI v)
  | Field16 rDI => modify_registers (set_DI v)
  | Cell16 n =>
      fun c =>
        match update_nat (locals16 c) n v with
        | Some l => Returned tt (set_locals16 l c)
        | None => Panic "runtime error: invalid memory address" c
        end
  end.

Definition loadSeg (p : PtrSeg) : Exec Z :=
  match p with
  | FieldSeg rES => gets (fun c => ES (registers c))
  | FieldSeg rCS => gets (fun c => CS (registers c))
  | FieldSeg rSS => gets (fun c => SS (registers c))
  | FieldSeg rDS => gets (fun c => DS (registers c))
  end.

Definition storeSeg (p : PtrSeg) (v : Z) : Exec unit :=
  match p with
  | FieldSeg rES => modify_registers (set_ES v)
  | FieldSeg rCS => modify_registers (set_CS v)
  | FieldSeg rSS => modify_registers (set_SS v)
  | FieldSeg rDS => modify_registers (set_DS v)
  end.

(** ** Opcode handlers (package cpu), continued: MOV *)

Section Mov.

(** [getReg16] and [getRm16] resolve the two operands of the instruction at
    [CS:IP]; their code is not part of the sources at hand.  [getRm16]
    returns an interface value which the handler asserts to be a [*uint16];
    here it returns the pointer. *)
Variable getReg16 : Exec Ptr16.
Variable getRm16 : Exec Ptr16.

Definition INSTR_MOV : Exec unit :=
  op <- gets currentByteAtCodePointer;;
  if 0xB0 =? op then
    cp <- GetCurrentCodePointer;;
    val <- mem_ReadAddr8 (uint32 (cp + 1));;
    modify_registers (set_AL val);;
    ip <- GetIP;;
    mem_SetIP (uint16 (uint16 (ip + 2)))
  else if 0xBB =? op then
    cp <- GetCurrentCodePointer;;
    val <- mem_ReadAddr16 (uint32 (cp + 1));;
    modify_registers (set_BX val);;
    ip <- GetIP;;
    mem_SetIP (uint16 (uint16 (ip + 3)))
  else if 0xB4 =? op then
    cp <- GetCurrentCodePointer;;
    val <- mem_ReadAddr8 (uint32 (cp + 1));;
    modify_registers (set_AH val);;
    ip <- GetIP;;
    mem_SetIP (uint16 (uint16 (ip + 2)))
  else if 0x8B =? op then
    dest <- getReg16;;
    src <- getRm16;;
    v <- load16 src;;
    store16 dest v;;
    ip <- GetIP;;
    mem_SetIP (uint16 (uint16 (ip + 2)))
  else if 0x8C =? op then
    modrm <- consumeModRm;;
    t <- gets (fun c => registersSegmentRegisters (registers c));;
    src <- index_or_panic t (reg modrm);;
    dest <- getRm16;;
    v <- loadSeg src;;
    store16 dest v;;
    ip <- GetIP;;
    mem_SetIP (uint16 (uint16 (ip + 2)))
  else if 0x8E =? op then
    modrm <- consumeModRm;;
    src <- getRm16;;
    t <- gets (fun c => registersSegmentRegisters (registers c));;
    dest <- index_or_panic t (reg modrm);;
    v <- load16 src;;
    storeSeg dest v;;
    ip <- GetIP;;
    mem_SetIP (uint16 (uint16 (ip + 2)))
  else fatal "Unrecognised MOV instruction!".

End Mov.

(** The opcodes [INSTR_MOV] has a case for. *)
Definition mov_opcodes : list Z := [0xB0; 0xBB; 0xB4; 0x8B; 0x8C; 0x8E].

(** The ModR/M byte of the instruction at [CS:IP], decoded. *)
Definition modrm_of (core : CpuCore) : ModRm := decodeModRm (imm8_of core).

(** Operand resolution for the examples: the [reg] field names the
    register, the [rm] field of a register-direct byte the other one. *)
Definition getReg16_by_reg : Exec Ptr16 :=
  modrm <- consumeModRm;;
  t <- gets (fun c => registers16Bit (registers c));;
  index_or_panic t (reg modrm).

Definition getRm16_by_rm : Exec Ptr16 :=
  modrm <- consumeModRm;;
  t <- gets (fun c => registers16Bit (registers c));;
  index_or_panic t (rm modrm).

(** [B0 2A] (MOV AL, 0x2A) at [0000:0100] with AX = 0x1234. *)
Definition mov_al_2a : CpuCore :=
  let c := placed_at 0 0x100 (powered_on (image 0x100 [0xB0; 0x2A])) in
  set_currentByteAtCodePointer 0xB0
    (set_registers (set_AX 0x1234 (registers c)) c).

(** [BB 34 12] (MOV BX, 0x1234) at [0000:0100]. *)
Definition mov_bx_1234 : CpuCore :=
  set_currentByteAtCodePointer 0xBB
    (placed_at 0 0x100 (powered_on (image 0x100 [0xBB; 0x34; 0x12]))).

(** [B1 2A] (MOV CL, 0x2A) at [0000:0100]. *)
Definition mov_cl_2a : CpuCore :=
  set_currentByteAtCodePointer 0xB1
    (placed_at 0 0x100 (powered_on (image 0x100 [0xB1; 0x2A]))).

(** [8C E0] at [0000:0100]: MOV r/m16, Sreg with [reg] = 4. *)
Definition mov_ax_sreg4 : CpuCore :=
  set_currentByteAtCodePointer 0x8C
    (placed_at 0 0x100 (powered_on (image 0x100 [0x8C; 0xE0]))).

(** [8B C3] (MOV AX, BX) at [0000:0100] with BX = 0x1234. *)
Definition mov_ax_bx : CpuCore :=
  let c := placed_at 0 0x100 (powered_on (image 0x100 [0x8B; 0xC3])) in
  set_currentByteAtCodePointer 0x8B
    (set_registers (set_BX 0x1234 (registers c)) c).

(** [8E D8] (MOV DS, AX) at [0000:0100] with AX = 0x1234. *)
Definition mov_ds_ax : CpuCore :=
  let c := placed_at 0 0x100 (powered_on (image 0x100 [0x8E; 0xD8])) in
  set_currentByteAtCodePointer 0x8E
    (set_registers (set_AX 0x1234 (registers c)) c).

(** Decides the comparisons between opcode literals in the goal. *)
Ltac decide_opcode :=
  repeat match goal with
  | |- context [Z.eqb (Zpos ?a) (Zpos ?b)] =>
      let r := eval vm_compute in (Z.eqb (Zpos a) (Zpos b)) in
      change (Z.eqb (Zpos a) (Zpos b)) with r
  end;
  cbv beta iota.

(** ** The port instructions *)

(** The handlers reach the port controller through a pointer held by the
    core; here the controller is an argument and the result of the
    handler. *)
Definition INSTR_IN (dev : io.IOPortAccessController)
  : Exec io.IOPortAccessController :=
  op <- gets currentByteAtCodePointer;;
  dev' <-
    (if 0xE4 =? op then
       cp <- GetCurrentCodePointer;;
       imm <- mem_ReadAddr8 (uint32 (cp + 1));;
       let (data, dev') := io.ReadAddr8 dev (uint16 imm) in
       modify_registers (set_AL data);;
       ret dev'
     else if 0xE5 =? op then
       dx <- gets (fun c => DX (registers c));;
       let (data, dev') := io.ReadAddr8 dev (uint16 dx) in
       modify_registers (set_AL data);;
       ret dev'
     else if 0xEC =? op then
       cp <- GetCurrentCodePointer;;
       imm <- mem_ReadAddr16 (uint32 (cp + 1));;
       let (data, dev') := io.ReadAddr16 dev imm in
       modify_registers (set_AX data);;
       ret dev'
     else if 0xED =? op then
       dx <- gets (fun c => DX (registers c));;
       let (data, dev') := io.ReadAddr16 dev (uint16 dx) in
       modify_registers (set_AX data);;
       ret dev'
     else fatal "Unrecognised IN (port read) instruction!");;
  ip <- GetIP;;
  mem_SetIP (uint16 (uint16 (ip + 2)));;
  ret dev'.

Definition INSTR_OUT (dev : io.IOPortAccessController)
  : Exec io.IOPortAccessController :=
  op <- gets currentByteAtCodePointer;;
  dev' <-
    (if 0xE6 =? op then
       cp <- GetCurrentCodePointer;;
       imm <- mem_ReadAddr8 (uint32 (cp + 1));;
       al <- gets (fun c => AL (registers c));;
       ret (io.WriteAddr8 dev (uint16 imm) al)
     else if 0xE7 =? op then
       cp <- GetCurrentCodePointer;;
       imm <- mem_ReadAddr8 (uint32 (cp + 1));;
       ax <- gets (fun c => AX (registers c));;
       ret (io.WriteAddr16 dev (uint16 imm) ax)
     else if 0xEE =? op then
       dx <- gets (fun c => DX (registers c));;
       al <- gets (fun c => AL (registers c));;
       ret (io.WriteAddr8 dev (uint16 dx) al)
     else if 0xEF =? op then
       dx <- gets (fun c => DX (registers c));;
       ax <- gets (fun c => AX (registers c));;
       ret (io.WriteAddr16 dev (uint16 dx) ax)
     else fatal "Unrecognised IN (port read) instruction!");;
  ip <- GetIP;;
  mem_SetIP (uint16 (uint16 (ip + 2)));;
  ret dev'.

(** The opcodes [INSTR_IN] and [INSTR_OUT] have a case for. *)
Definition in_opcodes : list Z := [0xE4; 0xE5; 0xEC; 0xED].

Definition out_opcodes : list Z := [0xE6; 0xE7; 0xEE; 0xEF].

(** A port space of zeroes on which nothing was done yet. *)
Definition quiet_ports : io.IOPortAccessController :=
  {| io.ports := fun _ => 0; io.accesses := [] |}.

(** [E6 61] (OUT 0x61, AL) at [0000:0100] with AL = 0xA5. *)
Definition out_61_al : CpuCore :=
  let c := placed_at 0 0x100 (powered_on (image 0x100 [0xE6; 0x61])) in
  set_currentByteAtCodePointer 0xE6
    (set_registers (set_AL 0xA5 (registers c)) c).

(** [E4 61] (IN AL, 0x61) at [0000:0100] with AX = 0x1234. *)
Definition in_al_61 : CpuCore :=
  let c := placed_at 0 0x100 (powered_on (image 0x100 [0xE4; 0x61])) in
  set_currentByteAtCodePointer 0xE4
    (set_registers (set_AX 0x1234 (registers c)) c).

(** [E8] at [0000:0100]: an opcode neither port handler knows. *)
Definition e8_at_0100 : CpuCore :=
  set_currentByteAtCodePointer 0xE8
    (placed_at 0 0x100 (powered_on (image 0x100 [0xE8]))).

(** ** MOV of package intel8086

    This handler belongs to a revision of the core that keeps a decode
    cursor in three further fields of the core: the address of the byte
    being decoded, the address where decoding of the instruction started,
    and the opcode being executed.  They are carried beside the core; a
    method that may move the cursor takes it and returns it.  In this
    revision an entry of the segment table points to a record whose [base]
    the handler reads and writes; [base] is the value of the segment
    register. *)

Module intel8086.

Record DecodeCursor : Type := {
  currentByteAddr : Z;
  currentByteDecodeStart : Z;
  currentOpCodeBeingExecuted : Z
}.

(** [core.currentByteAddr += n] on a [uint32]. *)
Definition advance (n : Z) (k : DecodeCursor) : DecodeCursor :=
  {| currentByteAddr := uint32 (currentByteAddr k + n);
     currentByteDecodeStart := currentByteDecodeStart k;
     currentOpCodeBeingExecuted := currentOpCodeBeingExecuted k |}.

Definition r8_imm8_opcodes : list Z :=
  [0xB0; 0xB1; 0xB2; 0xB3; 0xB4; 0xB5; 0xB6; 0xB7].

Definition r16_imm16_opcodes : list Z :=
  [0xB8; 0xB9; 0xBA; 0xBB; 0xBC; 0xBD; 0xBE; 0xBF].

Section Mov.

(** [core.consumeModRm()] returns the ModR/M structure and the number of
    bytes consumed; [modrm.getAddressMode16(core)] the address of a memory
    operand.  Their code is not part of the sources at hand. *)
Variable consumeModRm : DecodeCursor -> Exec (ModRm * Z * DecodeCursor).
Variable getAddressMode16 : ModRm -> DecodeCursor -> Exec (Z * DecodeCursor).

Definition INSTR_MOV (k : DecodeCursor) : Exec DecodeCursor :=
  let k := advance 1 k in
  let op := currentOpCodeBeingExecuted k in
  k <-
    (if op =? 0xA0 then
       b <- mem_ReadAddr8 (currentByteAddr k);;
       let offset := uint8 b in
       let k := advance 1 k in
       let segOff := uint16 offset in
       byteValue <- mem_ReadAddr8 (uint32 segOff);;
       modify_registers (set_AL byteValue);;
       ret k
     else if op =? 0xA1 then
       w <- mem_ReadAddr16 (currentByteAddr k);;
       let offset := uint16 w in
       let k := advance 2 k in
       byteValue <- mem_ReadAddr16 (uint32 offset);;
       modify_registers (set_AX byteValue);;
       ret k
     else if op =? 0xA2 then
       b <- mem_ReadAddr8 (currentByteAddr k);;
       let offset := uint8 b in
       let k := advance 1 k in
       let segOff := uint16 offset in
       al <- gets (fun c => AL (registers c));;
       mem_WriteAddr8 (uint32 segOff) al;;
       ret k
     else if op =? 0xA3 then
       w <- mem_ReadAddr16 (currentByteAddr k);;
       let offset := uint16 w in
       let k := advance 2 k in
       let segOff := uint16 offset in
       ax <- gets (fun c => AX (registers c));;
       mem_WriteAddr16 (uint32 segOff) ax;;
       ret k
     else if existsb (Z.eqb op) r8_imm8_opcodes then
       t <- gets (fun c => registers8Bit (registers c));;
       r8 <- index_or_panic t (uint8 (op - 0xB0));;
       val <- mem_ReadAddr8 (currentByteAddr k);;
       let k := advance 1 k in
       store8 r8 val;;
       ret k
     else if existsb (Z.eqb op) r16_imm16_opcodes then
       t <- gets (fun c => registers16Bit (registers c));;
       r16 <- index_or_panic t (uint8 (op - 0xB8));;
       val <- mem_ReadAddr16 (currentByteAddr k);;
       let k := advance 2 k in
       store16 r16 val;;
       ret k
     else if op =? 0x8A then
       res <- consumeModRm k;;
       let '(modrm, bytesConsumed, k) := res in
       let k := advance bytesConsumed k in
       t <- gets (fun c => registers8Bit (registers c));;
       dest <- index_or_panic t (reg modrm);;
       if mod_ modrm =? 3 then
         t <- gets (fun c => registers8Bit (registers c));;
         src <- index_or_panic t (rm modrm);;
         v <- load8 src;;
         store8 dest v;;
         ret k
       else
         res <- getAddressMode16 modrm k;;
         let '(addressMode, k) := res in
         data <- mem_ReadAddr8 (uint32 addressMode);;
         store8 dest data;;
         ret k
     else if op =? 0x8B then
       res <- consumeModRm k;;
       let '(modrm, bytesConsumed, k) := res in
       let k := advance bytesConsumed k in
       t <- gets (fun c => registers16Bit (registers c));;
       dest <- index_or_panic t (reg modrm);;
       if mod_ modrm =? 3 then
         t <- gets (fun c => registers16Bit (registers c));;
         src <- index_or_panic t (rm modrm);;
         v <- load16 src;;
         store16 dest v;;
         ret k
       else
         res <- getAddressMode16 modrm k;;
         let '(addressMode, k) := res in
         data <- mem_ReadAddr16 (uint32 addressMode);;
         store16 dest data;;
         ret k
     else if op =? 0x8C then
       res <- consumeModRm k;;
       let '(modrm, bytesConsumed, k) := res in
       let k := advance bytesConsumed k in
       t <- gets (fun c => registersSegmentRegisters (registers c));;
       src <- index_or_panic t (reg modrm);;
       if mod_ modrm =? 3 then
         t <- gets (fun c => registers16Bit (registers c));;
         dest <- index_or_panic t (rm modrm);;
         base <- loadSeg src;;
         store16 dest base;;
         ret k
       else
         res <- getAddressMode16 modrm k;;
         let '(addressMode, k) := res in
         base <- loadSeg src;;
         mem_WriteAddr16 (uint32 addressMode) base;;
         ret k
     else if op =? 0x8E then
       res <- consumeModRm k;;
       let '(modrm, bytesConsumed, k) := res in
       let k := advance bytesConsumed k in
       t <- gets (fun c => registersSegmentRegisters (registers c));;
       dest <- index_or_panic t (reg modrm);;
       if mod_ modrm =? 3 then
         t <- gets (fun c => registers16Bit (registers c));;
         src <- index_or_panic t (rm modrm);;
         v <- load16 src;;
         storeSeg dest v;;
         ret k
       else
         res <- getAddressMode16 modrm k;;
         let '(addressMode, k) := res in
         data <- mem_ReadAddr16 (uint32 addressMode);;
         storeSeg dest data;;
         ret k
     else fatal "Unrecognised MOV instruction!");;
  modify_registers
    (fun r =>
       set_IP
         (uint16
            (IP r +
             uint16 (uint32 (currentByteAddr k - currentByteDecodeStart k))))
         r);;
  ret k.

End Mov.

(** The opcodes [INSTR_MOV] has a case for. *)
Definition recognised_opcodes : list Z :=
  [0xA0; 0xA1; 0xA2; 0xA3] ++ r8_imm8_opcodes ++ r16_imm16_opcodes ++
  [0x8A; 0x8B; 0x8C; 0x8E].

(** A cursor standing on the opcode at the code pointer of [core]. *)
Definition cursor_at (core : CpuCore) (op : Z) : DecodeCursor :=
  {| currentByteAddr := code_pointer (registers core);
     currentByteDecodeStart := code_pointer (registers core);
     currentOpCodeBeingExecuted := op |}.

(** For the examples: the ModR/M byte is the byte at the cursor, and one
    byte is consumed. *)
Definition consumeModRm_one_byte (k : DecodeCursor)
  : Exec (ModRm * Z * DecodeCursor) :=
  b <- mem_ReadAddr8 (currentByteAddr k);;
  ret (decodeModRm b, 1, k).

(** For the examples: the operand [[BX]] whatever the ModR/M byte. *)
Definition getAddressMode16_bx (modrm : ModRm) (k : DecodeCursor)
  : Exec (Z * DecodeCursor) :=
  bx <- gets (fun c => BX (registers c));;
  ret (bx, k).

End intel8086.

(** The register tables as [New80386CPU] builds them. *)
Definition fresh_registers8Bit : list Ptr8 :=
  [Field8 rAL; Field8 rCL; Field8 rDL; Field8 rBL;
   Field8 rAH; Field8 rCH; Field8 rDH; Field8 rBH].

Definition fresh_registers16Bit : list Ptr16 :=
  [Field16 rAX; Field16 rCX; Field16 rDX; Field16 rBX;
   Field16 rSP; Field16 rBP; Field16 rSI; Field16 rDI].

(** [B5 2A] (MOV CH, 0x2A) at [0000:0100]. *)
Definition mov386_ch_2a : CpuCore :=
  placed_at 0 0x100 (powered_on (image 0x100 [0xB5; 0x2A])).

(** [BE 34 12] (MOV SI, 0x1234) at [0000:0100]. *)
Definition mov386_si_1234 : CpuCore :=
  placed_at 0 0x100 (powered_on (image 0x100 [0xBE; 0x34; 0x12])).

(** [A0 02 5A] at [0000:0100] with DS = 0x1000: MOV AL, moffs with offset
    byte 02; address 2 holds 0 and address 0x102 holds 0x5A. *)
Definition mov386_al_moffs : CpuCore :=
  let c := placed_at 0 0x100 (powered_on (image 0x100 [0xA0; 0x02; 0x5A])) in
  set_registers (set_DS 0x1000 (registers c)) c.

(** [8B C3] (MOV AX, BX) at [0000:0100] with BX = 0x1234. *)
Definition mov386_ax_bx : CpuCore :=
  let c := placed_at 0 0x100 (powered_on (image 0x100 [0x8B; 0xC3])) in
  set_registers (set_BX 0x1234 (registers c)) c.

(** [88 C3] at [0000:0100]: MOV r/m8, r8, which the handler has no case
    for. *)
Definition mov386_88 : CpuCore :=
  placed_at 0 0x100 (powered_on (image 0x100 [0x88; 0xC3])).

(** Evaluates the table lookups on closed tables and indices in the goal. *)
Ltac decide_index :=
  repeat match goal with
  | |- context [index ?l ?i] =>
      let r := eval vm_compute in (index l i) in
      change (index l i) with r
  end;
  cbv beta iota.

(** * Properties *)

(** ** Fixed-width arithmetic *)

Lemma uint16_idem (x : Z) : uint16 (uint16 x) = uint16 x.
Proof. unfold uint16. apply Z.mod_mod. lia. Qed.

Lemma uint16_range (x : Z) : 0 <= uint16 x < 2 ^ 16.
Proof. unfold uint16. apply Z.mod_pos_bound. lia. Qed.

Lemma uint8_range (x : Z) : 0 <= uint8 x < 2 ^ 8.
Proof. unfold uint8. apply Z.mod_pos_bound. lia. Qed.

Lemma uint32_of_uint16 (x : Z) : uint32 (uint16 x) = uint16 x.
Proof.
  unfold uint32. apply Z.mod_small.
  pose proof (uint16_range x). lia.
Qed.

Lemma uint16_add_l (x y : Z) : uint16 (uint16 x + y) = uint16 (x + y).
Proof. unfold uint16. apply Zplus_mod_idemp_l. Qed.

Lemma uint16_add_r (x y : Z) : uint16 (x + uint16 y) = uint16 (x + y).
Proof. unfold uint16. apply Zplus_mod_idemp_r. Qed.

(** [int16] keeps the value modulo 2^16. *)
Lemma uint16_int16 (x : Z) : uint16 (int16 x) = uint16 x.
Proof.
  unfold uint16, int16.
  destruct (x mod 2 ^ 16 <? 2 ^ 15).
  - apply Z.mod_mod. lia.
  - replace (x mod 2 ^ 16 - 2 ^ 16) with (x mod 2 ^ 16 + (-1) * 2 ^ 16) by lia.
    rewrite Z.mod_add by lia. apply Z.mod_mod. lia.
Qed.

Lemma int16_int16 (x : Z) : int16 (int16 x) = int16 x.
Proof.
  unfold int16 at 1. fold (uint16 (int16 x)). rewrite uint16_int16.
  reflexivity.
Qed.

(** The address both [GetCurrentCodePointer] and [BuildAddress] compute. *)
Lemma shift_add_16 (seg off : Z) :
  uint32 (uint16 (uint16 (Z.shiftl seg 4) + off)) = (seg * 16 + off) mod 2 ^ 16.
Proof.
  rewrite uint32_of_uint16, uint16_add_l, Z.shiftl_mul_pow2 by lia.
  reflexivity.
Qed.

(** C1.  The address the core forms from a segment and an offset is the
    16-bit sum [(segment * 16 + offset) mod 2^16], for instruction fetch
    ([GetCurrentCodePointer]) and for data ([BuildAddress]) alike: the shift
    and the addition are carried out on 16-bit words.  After reset, with
    CS = 0xF000 and IP = 0xFFF0, the fetch address is 0xFFF0, whereas
    [(0xF000 * 16 + 0xFFF0) mod 2^20] is 0xFFFF0. *)
Theorem linear_address_wraps_at_16_bits :
  (forall seg off, BuildAddress seg off = (seg * 16 + off) mod 2 ^ 16) /\
  (forall core,
     GetCurrentCodePointer core =
     Returned ((CS (registers core) * 16 + IP (registers core)) mod 2 ^ 16)
              core) /\
  GetCurrentCodePointer (powered_on (image 0 [])) =
    Returned 0xFFF0 (powered_on (image 0 [])) /\
  BuildAddress 0xF000 0xFFF0 = 0xFFF0 /\
  (0xF000 * 16 + 0xFFF0) mod 2 ^ 20 = 0xFFFF0.
Proof.
  split; [| split; [| split; [| split]]].
  - intros seg off. apply shift_add_16.
  - intros core. unfold GetCurrentCodePointer, gets, code_pointer.
    now rewrite shift_add_16.
  - reflexivity.
  - reflexivity.
  - reflexivity.
Qed.

(** ** Lifecycle and bus messages *)

(** C9.  [Reset] returns with CS = 0xF000 and IP = 0xFFF0, and the bus has
    received exactly one more message, GLOBAL_LOCK_BIOS_MEM_REGION with an
    empty payload. *)
Theorem Reset_vector_and_lock_message (common : Common) (core : CpuCore) :
  exists core', Reset common core = Returned tt core' /\
    CS (registers core') = 0xF000 /\
    IP (registers core') = 0xFFF0 /\
    bus.sent (bus core') =
      bus.sent (bus core) ++
      [{| bus.Subject := MESSAGE_GLOBAL_LOCK_BIOS_MEM_REGION common;
          bus.Data := [] |}].
Proof.
  eexists. split; [reflexivity |]. cbn. auto.
Qed.

(** The mode switch, as the core performs it: the mode is stored, the
    announcement is sent, and everything else, [CR0] included, stays as it
    was. *)
Lemma EnterMode_effect (common : Common) (m : Z) (core : CpuCore) :
  EnterMode common m core =
  Returned tt
    (set_bus
       (bus.SendMessage (bus core)
          {| bus.Subject := MESSAGE_GLOBAL_CPU_MODESWITCH common;
             bus.Data := [m] |})
       (set_mode m core)).
Proof. reflexivity. Qed.

(** C4, as amended.  On a mode-switch request carrying the one-byte mode
    [m], whatever [m] and the state are, the core returns with its mode set
    to [m], the bus has received exactly one more message,
    GLOBAL_CPU_MODESWITCH with payload [m], and the execution flags, [CR0]
    among them, and the registers are unchanged. *)
Theorem modeswitch_sets_mode_and_announces
  (common : Common) (m : Z) (core : CpuCore) :
  exists core',
    OnReceiveMessage common (modeswitch_request common m) core =
      Returned tt core' /\
    mode core' = m /\
    bus.sent (bus core') =
      bus.sent (bus core) ++
      [{| bus.Subject := MESSAGE_GLOBAL_CPU_MODESWITCH common;
          bus.Data := [m] |}] /\
    flags core' = flags core /\
    registers core' = registers core.
Proof.
  unfold OnReceiveMessage, modeswitch_request. cbn [bus.Subject bus.Data].
  rewrite Z.eqb_refl.
  eexists. split; [reflexivity |]. cbn. auto.
Qed.

(** C4, as stated, fails: a request to enter protected mode, received by the
    core right after power-on, is honoured (the mode changes) and leaves
    [CR0] at zero, its protection-enable bit clear; and a core whose [CR0]
    has that bit set keeps it set when it is asked to enter real mode. *)
Lemma modeswitch_leaves_CR0 :
  (exists core',
     OnReceiveMessage common_ids
       (modeswitch_request common_ids (PROTECTED_MODE common_ids))
       (powered_on (image 0 [])) = Returned tt core' /\
     mode core' = PROTECTED_MODE common_ids /\
     CR0 (flags core') = 0 /\
     Z.testbit (CR0 (flags core')) 0 = false) /\
  (exists core',
     OnReceiveMessage common_ids
       (modeswitch_request common_ids (REAL_MODE common_ids))
       (Build_CpuCore 1 {| bus.sent := [] |} (image 0 [])
          (registers (New80386CPU common_ids)) (PROTECTED_MODE common_ids)
          {| CS_OVERRIDE := 0; CS_OVERRIDE_ENABLE := false; CR0 := 1 |}
          0 0 0 0 [] []) = Returned tt core' /\
     mode core' = REAL_MODE common_ids /\
     Z.testbit (CR0 (flags core')) 0 = true).
Proof.
  split; eexists; (split; [reflexivity |]); cbn; auto.
Qed.

(** C10.  A message whose subject is not the mode-switch request is
    ignored: [OnReceiveMessage] returns the core as it was, the bus it
    holds included. *)
Theorem other_messages_are_ignored
  (common : Common) (message : bus.BusMessage) (core : CpuCore) :
  bus.Subject message <> MESSAGE_REQUEST_CPU_MODESWITCH common ->
  OnReceiveMessage common message core = Returned tt core.
Proof.
  intros Hsubject. unfold OnReceiveMessage.
  destruct (Z.eqb_spec (bus.Subject message)
              (MESSAGE_REQUEST_CPU_MODESWITCH common)) as [Heq | _].
  - contradiction.
  - reflexivity.
Qed.

Lemma other_messages_are_ignored_witness :
  bus.Subject {| bus.Subject := 12; bus.Data := [] |} <>
    MESSAGE_REQUEST_CPU_MODESWITCH common_ids /\
  OnReceiveMessage common_ids {| bus.Subject := 12; bus.Data := [] |}
    (powered_on (image 0 [])) = Returned tt (powered_on (image 0 [])).
Proof.
  split.
  - cbn. discriminate.
  - apply (other_messages_are_ignored common_ids
             {| bus.Subject := 12; bus.Data := [] |}
             (powered_on (image 0 []))).
    cbn. discriminate.
Defined.

(** ** Flag-defining instructions *)

(** C5.  After CMP AL, imm8 (opcode 0x3C), for every AL and every
    immediate: ZF = 1 exactly when AL = imm8, CF = 1 exactly when
    AL < imm8, and ZF = 0 with CF = 0 exactly when AL > imm8. *)
Theorem CMP_AL_imm8_flag_law (core : CpuCore) :
  currentByteAtCodePointer core = 0x3C ->
  exists core',
    INSTR_CMP core = Returned tt core' /\
    (ZF (registers core') = 1 <-> AL (registers core) = imm8_of core) /\
    (CF (registers core') = 1 <-> AL (registers core) < imm8_of core) /\
    (ZF (registers core') = 0 /\ CF (registers core') = 0 <->
     AL (registers core) > imm8_of core).
Proof.
  intros Hop. unfold INSTR_CMP, imm8_of. run_exec. rewrite Hop.
  change (0x3C =? 0x3C) with true. cbv beta iota.
  generalize (memmap.byte_at (memoryAccessController core)
                (uint32 (code_pointer (registers core) + 1))).
  generalize (AL (registers core)). intros dst src.
  destruct (Z.eqb_spec src dst) as [Heq | Hne].
  - eexists. split; [reflexivity |]. cbn. lia.
  - destruct (Z.ltb_spec dst src) as [Hlt | Hge].
    + eexists. split; [reflexivity |]. cbn. lia.
    + destruct (Z.gtb_spec dst src) as [Hgt | Hle].
      * eexists. split; [reflexivity |]. cbn. lia.
      * lia.
Qed.

Lemma CMP_AL_imm8_flag_law_witness :
  currentByteAtCodePointer (cmp_al_5 4) = 0x3C /\
  exists core',
    INSTR_CMP (cmp_al_5 4) = Returned tt core' /\
    (ZF (registers core') = 1 <->
     AL (registers (cmp_al_5 4)) = imm8_of (cmp_al_5 4)) /\
    (CF (registers core') = 1 <->
     AL (registers (cmp_al_5 4)) < imm8_of (cmp_al_5 4)) /\
    (ZF (registers core') = 0 /\ CF (registers core') = 0 <->
     AL (registers (cmp_al_5 4)) > imm8_of (cmp_al_5 4)).
Proof.
  split.
  - reflexivity.
  - apply (CMP_AL_imm8_flag_law (cmp_al_5 4)). reflexivity.
Defined.

(** Case analysis on a byte by enumeration. *)
Lemma byte_cases (P : Z -> bool) :
  forallb P all_bytes = true -> forall x, 0 <= x < 2 ^ 8 -> P x = true.
Proof.
  intros Hall x Hx. rewrite forallb_forall in Hall. apply Hall.
  unfold all_bytes. apply in_map_iff. exists (Z.to_nat x). split.
  - lia.
  - apply in_seq. lia.
Qed.

Lemma land_uint8_range (x y : Z) : 0 <= Z.land (uint8 x) y < 2 ^ 8.
Proof.
  unfold uint8. rewrite <- Z.land_ones by lia.
  rewrite <- Z.land_assoc, (Z.land_comm (Z.ones 8) y), Z.land_assoc.
  rewrite Z.land_ones by lia. apply Z.mod_pos_bound. lia.
Qed.

Lemma TEST_flags_of_byte (tmp : Z) :
  0 <= tmp < 2 ^ 8 ->
  uint16 (getMSB tmp) = sign_flag8 tmp /\
  parity_loop tmp 1 = parity_flag tmp.
Proof.
  intros Htmp.
  pose proof (byte_cases
    (fun t => (uint16 (getMSB t) =? sign_flag8 t) &&
              (parity_loop t 1 =? parity_flag t))) as Hall.
  cbv beta in Hall. specialize (Hall ltac:(vm_compute; reflexivity) tmp Htmp).
  apply andb_true_iff in Hall. destruct Hall as [Hs Hp].
  split; now apply Z.eqb_eq.
Qed.

(** C6.  TEST AL, imm8 (opcode 0xA8) returns with SF equal to bit 7 of
    AL & imm8, ZF = 1 when that result is zero and ZF = 0 otherwise, PF equal
    to the parity of the result, CF = 0 and OF = 0; AL keeps its value. *)
Theorem TEST_AL_imm8_flags (core : CpuCore) :
  exists core',
    INSTR_TEST_AL core = Returned tt core' /\
    SF (registers core') =
      sign_flag8 (Z.land (AL (registers core)) (imm8_of core)) /\
    (ZF (registers core') = 1 <->
     Z.land (AL (registers core)) (imm8_of core) = 0) /\
    (ZF (registers core') = 0 <->
     Z.land (AL (registers core)) (imm8_of core) <> 0) /\
    PF (registers core') =
      parity_flag (Z.land (AL (registers core)) (imm8_of core)) /\
    CF (registers core') = 0 /\
    OF (registers core') = 0 /\
    AL (registers core') = AL (registers core).
Proof.
  unfold INSTR_TEST_AL, imm8_of. run_exec.
  rewrite (Z.land_comm (AL (registers core))).
  pose proof (land_uint8_range
    (memmap.ram (memoryAccessController core)
       (uint32 (code_pointer (registers core) + 1)))
    (AL (registers core))) as Hrange.
  fold (memmap.byte_at (memoryAccessController core)
          (uint32 (code_pointer (registers core) + 1))) in Hrange.
  destruct (TEST_flags_of_byte _ Hrange) as [Hsf Hpf].
  revert Hsf Hpf.
  generalize (Z.land
    (memmap.byte_at (memoryAccessController core)
       (uint32 (code_pointer (registers core) + 1)))
    (AL (registers core))).
  intros tmp Hsf Hpf.
  destruct (Z.eqb_spec tmp 0) as [Hz | Hnz];
    (eexists; split; [reflexivity |];
     cbn -[parity_loop getMSB uint16];
     rewrite Hsf, Hpf; repeat split; auto; try lia; try discriminate).
Qed.

(** ** The step driver *)

(** The driver in terms of the code pointer.  [Step] first records the
    code pointer of the instruction at [CS:IP].
    If that address is the one recorded for the previous instruction, the
    process ends with the loop diagnostic, in the state of entry with the
    snapshot recorded, whatever the dispatcher is: no handler has run.
    Otherwise, when dispatch returns status 0 and has left the snapshot in
    place, [Step] returns and the snapshot is the last-executed address. *)
Theorem Step_loop_watchdog (routeInstruction : Exec Z) (core : CpuCore) :
  let snapshot := code_pointer (registers core) in
  let entered := set_currentlyExecutingInstructionPointer snapshot core in
  (snapshot = lastExecutedInstructionPointer core ->
   Step routeInstruction core = Fatal loop_diagnostic entered) /\
  (snapshot <> lastExecutedInstructionPointer core ->
   forall core',
     routeInstruction entered = Returned 0 core' ->
     currentlyExecutingInstructionPointer core' = snapshot ->
     Step routeInstruction core =
       Returned tt (set_lastExecutedInstructionPointer snapshot core')).
Proof.
  intros snapshot entered. unfold Step. run_exec.
  cbn [currentlyExecutingInstructionPointer lastExecutedInstructionPointer
       set_currentlyExecutingInstructionPointer].
  fold snapshot. fold entered. split.
  - intros Hsame. rewrite Hsame, Z.eqb_refl. reflexivity.
  - intros Hfresh core' Hroute Hkept.
    destruct (Z.eqb_spec snapshot (lastExecutedInstructionPointer core))
      as [Heq | _]; [contradiction |].
    rewrite Hroute. cbn. rewrite Hkept. reflexivity.
Qed.

Lemma Step_loop_watchdog_witness :
  Step (dispatch opCodeMap_jumps_and_flags) stuck_at_0100 =
    Fatal loop_diagnostic
      (set_currentlyExecutingInstructionPointer 0x100 stuck_at_0100) /\
  Step (dispatch opCodeMap_jumps_and_flags) nop_at_0100 =
    Returned tt
      (set_lastExecutedInstructionPointer 0x100
         (final_state
            (dispatch opCodeMap_jumps_and_flags
               (set_currentlyExecutingInstructionPointer 0x100
                  nop_at_0100)))).
Proof.
  split.
  - apply (proj1 (Step_loop_watchdog (dispatch opCodeMap_jumps_and_flags)
                    stuck_at_0100)).
    vm_compute. reflexivity.
  - apply (proj2 (Step_loop_watchdog (dispatch opCodeMap_jumps_and_flags)
                    nop_at_0100)).
    + vm_compute. discriminate.
    + vm_compute. reflexivity.
    + vm_compute. reflexivity.
Defined.

(** The fatal branch of [Step], with the text of its diagnostic. *)
Lemma Step_fatal_on_recorded_code_pointer
  (routeInstruction : Exec Z) (core : CpuCore) :
  code_pointer (registers core) = lastExecutedInstructionPointer core ->
  Step routeInstruction core =
    Fatal
      "CPU appears to be in a loop! Did you forget to increment the IP register?"
      (set_currentlyExecutingInstructionPointer
         (code_pointer (registers core)) core).
Proof.
  intros Hsame. unfold Step. run_exec.
  cbn [currentlyExecutingInstructionPointer lastExecutedInstructionPointer
       set_currentlyExecutingInstructionPointer].
  rewrite Hsame, Z.eqb_refl. reflexivity.
Qed.

(** C7, on the code.  [Step] compares 16-bit code pointers, not linear
    addresses: whenever the recorded address equals
    [(CS * 16 + IP) mod 2^16], the process ends with the diagnostic
    "CPU appears to be in a loop! ..." whatever the dispatcher is.  After
    JMP FAR 1000:0100 executed at 0000:0100 the instruction about to
    execute has linear address 0x10100 and the recorded address is 0x100;
    they differ, and still [Step] is fatal, no handler being dispatched. *)
Theorem Step_watchdog_confuses_aliased_addresses :
  (forall (routeInstruction : Exec Z) (core : CpuCore),
     Step routeInstruction
       (set_lastExecutedInstructionPointer
          ((CS (registers core) * 16 + IP (registers core)) mod 2 ^ 16)
          core) =
     Fatal
       "CPU appears to be in a loop! Did you forget to increment the IP register?"
       (set_currentlyExecutingInstructionPointer
          ((CS (registers core) * 16 + IP (registers core)) mod 2 ^ 16)
          (set_lastExecutedInstructionPointer
             ((CS (registers core) * 16 + IP (registers core)) mod 2 ^ 16)
             core))) /\
  CS (registers after_far_jump_to_1000_0100) = 0x1000 /\
  IP (registers after_far_jump_to_1000_0100) = 0x0100 /\
  (CS (registers after_far_jump_to_1000_0100) * 16 +
   IP (registers after_far_jump_to_1000_0100)) mod 2 ^ 20 = 0x10100 /\
  lastExecutedInstructionPointer after_far_jump_to_1000_0100 = 0x100 /\
  (forall routeInstruction : Exec Z,
     Step routeInstruction after_far_jump_to_1000_0100 =
     Fatal
       "CPU appears to be in a loop! Did you forget to increment the IP register?"
       (set_currentlyExecutingInstructionPointer 0x100
          after_far_jump_to_1000_0100)).
Proof.
  split; [| split; [vm_compute; reflexivity |];
            split; [vm_compute; reflexivity |];
            split; [vm_compute; reflexivity |];
            split; [vm_compute; reflexivity |]].
  - intros routeInstruction core. unfold Step. run_exec.
    cbn [currentlyExecutingInstructionPointer lastExecutedInstructionPointer
         set_currentlyExecutingInstructionPointer
         set_lastExecutedInstructionPointer registers].
    unfold code_pointer. rewrite shift_add_16, Z.eqb_refl. reflexivity.
  - intros routeInstruction.
    assert (Hcp : code_pointer (registers after_far_jump_to_1000_0100) =
                  0x100) by (vm_compute; reflexivity).
    assert (Hsame :
      code_pointer (registers after_far_jump_to_1000_0100) =
      lastExecutedInstructionPointer after_far_jump_to_1000_0100)
      by (vm_compute; reflexivity).
    rewrite (Step_fatal_on_recorded_code_pointer routeInstruction
               after_far_jump_to_1000_0100 Hsame).
    rewrite Hcp. reflexivity.
Qed.

(** ** Operands addressed by ModR/M *)

Section RegisterDirect.

Variable getAddressMode16 : ModRm -> Exec Z.
Variable index8ToString index16ToString : Z -> string.

(** With [mod] = 3 a read of the operand returns the pointer stored in the
    register table and leaves the whole state as it was. *)
Lemma readRm8_register_direct (modrm : ModRm) (core : CpuCore) (p : Ptr8) :
  mod_ modrm = 3 ->
  index (registers8Bit (registers core)) (rm modrm) = Some p ->
  readRm8 getAddressMode16 index8ToString modrm core =
    Returned (p, index8ToString (rm modrm)) core.
Proof.
  intros Hmod Hidx. unfold readRm8. rewrite Hmod.
  change (3 =? 3) with true. run_exec. rewrite Hidx. reflexivity.
Qed.

Lemma readRm16_register_direct (modrm : ModRm) (core : CpuCore) (p : Ptr16) :
  mod_ modrm = 3 ->
  index (registers16Bit (registers core)) (rm modrm) = Some p ->
  readRm16 getAddressMode16 index16ToString modrm core =
    Returned (p, index16ToString (rm modrm)) core.
Proof.
  intros Hmod Hidx. unfold readRm16. rewrite Hmod.
  change (3 =? 3) with true. run_exec. rewrite Hidx. reflexivity.
Qed.

End RegisterDirect.

(** C8.  For a ModR/M byte with [mod] = 3, resolving the r/m operand
    stays inside the register file.  [readRm8] and [readRm16] return the
    entry of the register table at [rm], with its name, and leave the whole
    state of the core as it was; [writeRm8] and [writeRm16] replace that
    entry of the table and leave everything else as it was: the bus, the
    mode, the execution flags, the recorded addresses, the heap cells and
    the memory access controller.  With [rm] outside the table each of them
    panics in the state of entry.  So, whatever the outcome, the memory
    access controller ends exactly as it was before the call: no read and no
    write was issued. *)
Theorem register_direct_issues_no_memory_access
  (getAddressMode16 : ModRm -> Exec Z)
  (index8ToString index16ToString : Z -> string)
  (modrm : ModRm) (value8 : Ptr8) (value16 : Ptr16) (core : CpuCore) :
  mod_ modrm = 3 ->
  (readRm8 getAddressMode16 index8ToString modrm core =
     match index (registers8Bit (registers core)) (rm modrm) with
     | Some p => Returned (p, index8ToString (rm modrm)) core
     | None => Panic "runtime error: index out of range" core
     end /\
   readRm16 getAddressMode16 index16ToString modrm core =
     match index (registers16Bit (registers core)) (rm modrm) with
     | Some p => Returned (p, index16ToString (rm modrm)) core
     | None => Panic "runtime error: index out of range" core
     end /\
   writeRm8 getAddressMode16 modrm value8 core =
     match update (registers8Bit (registers core)) (rm modrm) value8 with
     | Some t =>
         Returned tt
           (set_registers (set_registers8Bit t (registers core)) core)
     | None => Panic "runtime error: index out of range" core
     end /\
   writeRm16 getAddressMode16 modrm value16 core =
     match update (registers16Bit (registers core)) (rm modrm) value16 with
     | Some t =>
         Returned tt
           (set_registers (set_registers16Bit t (registers core)) core)
     | None => Panic "runtime error: index out of range" core
     end) /\
  memoryAccessController
    (final_state (readRm8 getAddressMode16 index8ToString modrm core)) =
    memoryAccessController core /\
  memoryAccessController
    (final_state (readRm16 getAddressMode16 index16ToString modrm core)) =
    memoryAccessController core /\
  memoryAccessController
    (final_state (writeRm8 getAddressMode16 modrm value8 core)) =
    memoryAccessController core /\
  memoryAccessController
    (final_state (writeRm16 getAddressMode16 modrm value16 core)) =
    memoryAccessController core.
Proof.
  intros Hmod.
  unfold readRm8, readRm16, writeRm8, writeRm16, assign8, assign16.
  rewrite Hmod. change (3 =? 3) with true. run_exec.
  split; [repeat split |].
  - destruct (index (registers8Bit (registers core)) (rm modrm));
      reflexivity.
  - destruct (index (registers16Bit (registers core)) (rm modrm));
      reflexivity.
  - destruct (update (registers8Bit (registers core)) (rm modrm) value8);
      reflexivity.
  - destruct (update (registers16Bit (registers core)) (rm modrm) value16);
      reflexivity.
  - repeat split.
    + destruct (index (registers8Bit (registers core)) (rm modrm));
        reflexivity.
    + destruct (index (registers16Bit (registers core)) (rm modrm));
        reflexivity.
    + destruct (update (registers8Bit (registers core)) (rm modrm) value8);
        reflexivity.
    + destruct (update (registers16Bit (registers core)) (rm modrm) value16);
        reflexivity.
Qed.

Lemma register_direct_issues_no_memory_access_witness :
  mod_ (decodeModRm 0xD8) = 3 /\
  readRm8 getAddressMode16_table index8ToString_names (decodeModRm 0xD8)
    xchg_ax_bx = Returned (Field8 rAL, "AL"%string) xchg_ax_bx /\
  readRm16 getAddressMode16_table index16ToString_names (decodeModRm 0xD8)
    xchg_ax_bx = Returned (Field16 rAX, "AX"%string) xchg_ax_bx /\
  memoryAccessController
    (final_state
       (writeRm8 getAddressMode16_table (decodeModRm 0xD8) (Field8 rBL)
          xchg_ax_bx)) =
    memoryAccessController xchg_ax_bx /\
  memoryAccessController
    (final_state
       (writeRm16 getAddressMode16_table (decodeModRm 0xD8) (Field16 rBX)
          xchg_ax_bx)) =
    memoryAccessController xchg_ax_bx.
Proof.
  destruct (register_direct_issues_no_memory_access getAddressMode16_table
              index8ToString_names index16ToString_names (decodeModRm 0xD8)
              (Field8 rBL) (Field16 rBX) xchg_ax_bx eq_refl)
    as [[Hread8 [Hread16 _]] [_ [_ [Hwrite8 Hwrite16]]]].
  split; [reflexivity |].
  split; [exact Hread8 |]. split; [exact Hread16 |].
  split; [exact Hwrite8 | exact Hwrite16].
Defined.

(** ** Conditional jumps and exchange *)

Lemma uint16_add (x y : Z) : uint16 (x + y) = uint16 (uint16 x + uint16 y).
Proof. unfold uint16. apply Zplus_mod. Qed.

(** The target both short jumps compute: IP + 2 plus the displacement
    byte taken as an unsigned number, modulo 2^16. *)
Lemma short_jump_target (ip b : Z) :
  uint16 (int16 (int16 (uint16 (ip + 2)) + int16 (int16 b))) =
  uint16 (ip + 2 + b).
Proof.
  rewrite int16_int16, uint16_int16, uint16_add, !uint16_int16.
  rewrite uint16_idem, <- uint16_add. reflexivity.
Qed.

(** C2, on the code.  [INSTR_JZ_SHORT_REL8] transfers to
    IP + 2 + displacement exactly when ZF is 0 and falls through to IP + 2
    when ZF is not 0; [INSTR_JNZ_SHORT_REL8] does the reverse; in both the
    displacement byte is taken unsigned.  With [74 02] at IP = 0x200 the
    core ends at 0x202 for ZF = 1 and at 0x204 for ZF = 0; with [75 02] it
    ends at 0x204 for ZF = 1 and at 0x202 for ZF = 0. *)
Theorem short_jumps_test_ZF_reversed :
  (forall core, exists core',
     INSTR_JZ_SHORT_REL8 core = Returned tt core' /\
     IP (registers core') =
       if ZF (registers core) =? 0
       then uint16 (IP (registers core) + 2 + imm8_of core)
       else uint16 (IP (registers core) + 2)) /\
  (forall core, exists core',
     INSTR_JNZ_SHORT_REL8 core = Returned tt core' /\
     IP (registers core') =
       if ZF (registers core) =? 0
       then uint16 (IP (registers core) + 2)
       else uint16 (IP (registers core) + 2 + imm8_of core)) /\
  IP (registers (final_state (INSTR_JZ_SHORT_REL8 (jz_at_0200 1)))) = 0x202 /\
  IP (registers (final_state (INSTR_JZ_SHORT_REL8 (jz_at_0200 0)))) = 0x204 /\
  IP (registers (final_state (INSTR_JNZ_SHORT_REL8 (jnz_at_0200 1)))) = 0x204 /\
  IP (registers (final_state (INSTR_JNZ_SHORT_REL8 (jnz_at_0200 0)))) = 0x202.
Proof.
  split; [| split; [| repeat split; vm_compute; reflexivity]].
  - intros core. unfold INSTR_JZ_SHORT_REL8, imm8_of. run_exec.
    destruct (ZF (registers core) =? 0);
      (eexists; split; [reflexivity |]);
      cbn [registers set_registers IP set_IP].
    + apply short_jump_target.
    + apply uint16_idem.
  - intros core. unfold INSTR_JNZ_SHORT_REL8, imm8_of. run_exec.
    destruct (ZF (registers core) =? 0);
      (eexists; split; [reflexivity |]);
      cbn [registers set_registers IP set_IP negb].
    + apply uint16_idem.
    + rewrite <- (int16_int16 (memmap.byte_at _ _)) at 1.
      apply short_jump_target.
Qed.

(** C3, on the code.  [INSTR_XCHG] ends, whatever its outcome, with all
    eight 16-bit general registers and all flag words as they were; on
    [87 D8] with AX = 1 and BX = 2 it returns with AX = 1, BX = 2 and IP
    advanced by 2. *)
Theorem XCHG_changes_no_register :
  (forall core,
     general_registers (registers (final_state (INSTR_XCHG core))) =
       general_registers (registers core) /\
     flag_words (registers (final_state (INSTR_XCHG core))) =
       flag_words (registers core)) /\
  (exists core',
     INSTR_XCHG xchg_ax_bx = Returned tt core' /\
     AX (registers core') = 1 /\
     BX (registers core') = 2 /\
     IP (registers core') = 0x102).
Proof.
  split.
  - intros core. unfold INSTR_XCHG, load16. run_exec.
    destruct (index _ _) as [[r1 | n1] |]; [| | split; reflexivity].
    + destruct (index _ _) as [[r2 | n2] |].
      * destruct r1; destruct r2; split; reflexivity.
      * destruct r1; cbn [locals16 set_memoryAccessController];
          destruct (nth_error _ _); split; reflexivity.
      * destruct r1; split; reflexivity.
    + cbn [locals16 set_memoryAccessController].
      destruct (nth_error (locals16 core) n1); [| split; reflexivity].
      destruct (index _ _) as [[r2 | n2] |].
      * destruct r2; split; reflexivity.
      * cbn [locals16 set_memoryAccessController].
        destruct (nth_error _ _); split; reflexivity.
      * split; reflexivity.
  - eexists. split; [vm_compute; reflexivity |].
    repeat split.
Qed.

(** * Further properties of the core *)

(** ** Power-on and messages *)

(** X1.  [Init] stores the bus it is given and looks two devices up on
    it.  When the lookups give a memory controller and an I/O port
    controller, it returns in real mode with CS:IP at the reset vector and
    with that memory controller attached; the bus has received, in this
    order, the mode-switch announcement for real mode and the lock message,
    and nothing else.  When the first lookup gives no memory controller, it
    panics with only the bus stored; when the second gives no port
    controller, it panics with the bus and the memory controller stored; in
    both cases the mode is unchanged and no message was sent. *)
Theorem Init_enters_real_mode_then_resets
  (common : Common) (FindSingleDevice : bus.Bus -> Z -> option Device)
  (b : bus.Bus) (core : CpuCore) :
  (forall dev1 dev2,
     FindSingleDevice b (MODULE_MEMORY_ACCESS_CONTROLLER common) =
       Some (MemoryAccessControllerDevice dev1) ->
     FindSingleDevice b (MODULE_IO_PORT_ACCESS_CONTROLLER common) =
       Some (IOPortAccessControllerDevice dev2) ->
     exists core',
       Init common FindSingleDevice b core = Returned dev2 core' /\
       mode core' = REAL_MODE common /\
       CS (registers core') = 0xF000 /\
       IP (registers core') = 0xFFF0 /\
       memoryAccessController core' = dev1 /\
       bus.sent (bus core') =
         bus.sent b ++
         [{| bus.Subject := MESSAGE_GLOBAL_CPU_MODESWITCH common;
             bus.Data := [REAL_MODE common] |};
          {| bus.Subject := MESSAGE_GLOBAL_LOCK_BIOS_MEM_REGION common;
             bus.Data := [] |}] /\
       general_registers (registers core') =
         general_registers (registers core) /\
       lastExecutedInstructionPointer core' =
         lastExecutedInstructionPointer core) /\
  ((forall m,
      FindSingleDevice b (MODULE_MEMORY_ACCESS_CONTROLLER common) <>
        Some (MemoryAccessControllerDevice m)) ->
   Init common FindSingleDevice b core =
     Panic "interface conversion" (set_bus b core)) /\
  (forall dev1,
     FindSingleDevice b (MODULE_MEMORY_ACCESS_CONTROLLER common) =
       Some (MemoryAccessControllerDevice dev1) ->
     (forall d,
        FindSingleDevice b (MODULE_IO_PORT_ACCESS_CONTROLLER common) <>
          Some (IOPortAccessControllerDevice d)) ->
     Init common FindSingleDevice b core =
       Panic "interface conversion"
         (set_memoryAccessController dev1 (set_bus b core))).
Proof.
  split; [| split].
  - intros dev1 dev2 Hmem Hio. unfold Init. run_exec.
    rewrite Hmem. cbv beta iota. rewrite Hio.
    eexists. split; [reflexivity |]. cbn.
    rewrite <- app_assoc. repeat split.
  - intros Hmem. unfold Init. run_exec.
    destruct (FindSingleDevice b (MODULE_MEMORY_ACCESS_CONTROLLER common))
      as [[m | d |] |]; try reflexivity.
    exfalso. apply (Hmem m). reflexivity.
  - intros dev1 Hmem Hio. unfold Init. run_exec.
    rewrite Hmem. cbv beta iota.
    destruct (FindSingleDevice b (MODULE_IO_PORT_ACCESS_CONTROLLER common))
      as [[m | d |] |]; try reflexivity.
    exfalso. apply (Hio d). reflexivity.
Qed.

Lemma Init_enters_real_mode_then_resets_witness :
  (exists core',
     Init common_ids (attached_devices (image 0 [])) {| bus.sent := [] |}
       (New80386CPU common_ids) =
       Returned {| io.ports := fun _ => 0; io.accesses := [] |} core' /\
     mode core' = REAL_MODE common_ids /\
     CS (registers core') = 0xF000 /\
     IP (registers core') = 0xFFF0) /\
  Init common_ids (fun _ _ => None) {| bus.sent := [] |}
    (New80386CPU common_ids) =
    Panic "interface conversion"
      (set_bus {| bus.sent := [] |} (New80386CPU common_ids)).
Proof.
  destruct (Init_enters_real_mode_then_resets common_ids
              (attached_devices (image 0 [])) {| bus.sent := [] |}
              (New80386CPU common_ids)) as [Hfound _].
  destruct (Hfound (image 0 [])
              {| io.ports := fun _ => 0; io.accesses := [] |}
              eq_refl eq_refl)
    as [core' [Hrun [Hmode [Hcs [Hip _]]]]].
  split.
  - exists core'. repeat split; assumption.
  - apply (proj1 (proj2 (Init_enters_real_mode_then_resets common_ids
                           (fun _ _ => None) {| bus.sent := [] |}
                           (New80386CPU common_ids)))).
    intros m. discriminate.
Defined.

(** X2.  A mode-switch request with an empty payload makes
    [OnReceiveMessage] panic on [message.Data[0]]; the core is left as it
    was: no mode change and no announcement. *)
Theorem modeswitch_without_payload_panics
  (common : Common) (message : bus.BusMessage) (core : CpuCore) :
  bus.Subject message = MESSAGE_REQUEST_CPU_MODESWITCH common ->
  bus.Data message = [] ->
  OnReceiveMessage common message core =
    Panic "runtime error: index out of range" core.
Proof.
  intros Hsubject Hdata. unfold OnReceiveMessage.
  rewrite Hsubject, Z.eqb_refl, Hdata. reflexivity.
Qed.

Lemma modeswitch_without_payload_panics_witness :
  OnReceiveMessage common_ids {| bus.Subject := 10; bus.Data := [] |}
    (powered_on (image 0 [])) =
    Panic "runtime error: index out of range" (powered_on (image 0 [])).
Proof.
  apply (modeswitch_without_payload_panics common_ids
           {| bus.Subject := 10; bus.Data := [] |}
           (powered_on (image 0 []))); reflexivity.
Defined.

(** X3.  Of the payload of a mode-switch request only the first byte is
    used: a longer payload has the effect of its first byte alone, and the
    announcement carries that one byte. *)
Theorem modeswitch_uses_first_payload_byte
  (common : Common) (m : Z) (rest : list Z) (core : CpuCore) :
  OnReceiveMessage common
    {| bus.Subject := MESSAGE_REQUEST_CPU_MODESWITCH common;
       bus.Data := m :: rest |} core =
  OnReceiveMessage common (modeswitch_request common m) core.
Proof.
  unfold OnReceiveMessage, modeswitch_request. cbn [bus.Subject bus.Data].
  rewrite Z.eqb_refl. reflexivity.
Qed.

(** ** The step driver, continued *)




(** ** Immediate operands *)





(** ** Register tables and operands, continued *)

Lemma update_nat_same {A : Type} (l l' : list A) (n : nat) (a : A) :
  update_nat l n a = Some l' -> nth_error l' n = Some a.
Proof.
  revert l' n. induction l as [| h t IH]; intros l' n Hupd.
  - destruct n; discriminate.
  - destruct n as [| n]; cbn in Hupd.
    + injection Hupd as <-. reflexivity.
    + destruct (update_nat t n a) as [t' |] eqn:Ht; [| discriminate].
      injection Hupd as <-. cbn. now apply IH.
Qed.

Lemma update_nat_other {A : Type} (l l' : list A) (n m : nat) (a : A) :
  update_nat l n a = Some l' -> m <> n -> nth_error l' m = nth_error l m.
Proof.
  revert l' n m. induction l as [| h t IH]; intros l' n m Hupd Hne.
  - destruct n; discriminate.
  - destruct n as [| n]; cbn in Hupd.
    + injection Hupd as <-. destruct m; [contradiction | reflexivity].
    + destruct (update_nat t n a) as [t' |] eqn:Ht; [| discriminate].
      injection Hupd as <-. destruct m as [| m]; [reflexivity |].
      cbn. apply (IH t' n); [assumption | congruence].
Qed.

Lemma update_nat_defined {A : Type} (l : list A) (n : nat) (x a : A) :
  nth_error l n = Some x -> exists l', update_nat l n a = Some l'.
Proof.
  revert n. induction l as [| h t IH]; intros n Hnth.
  - destruct n; discriminate.
  - destruct n as [| n]; cbn.
    + eexists. reflexivity.
    + destruct (IH n Hnth) as [t' Ht]. rewrite Ht. eexists. reflexivity.
Qed.

Lemma index_update_same {A : Type} (l l' : list A) (i : Z) (a : A) :
  update l i a = Some l' -> index l' i = Some a.
Proof.
  unfold update, index. destruct (i <? 0); [discriminate |].
  apply update_nat_same.
Qed.

Lemma index_update_other {A : Type} (l l' : list A) (i j : Z) (a : A) :
  update l i a = Some l' -> j <> i -> index l' j = index l j.
Proof.
  unfold update, index. intros Hupd Hne.
  destruct (Z.ltb_spec i 0); [discriminate |].
  destruct (Z.ltb_spec j 0); [reflexivity |].
  apply (update_nat_other l l' (Z.to_nat i) _ a); [assumption | lia].
Qed.

Lemma update_defined {A : Type} (l : list A) (i : Z) (x a : A) :
  index l i = Some x -> exists l', update l i a = Some l'.
Proof.
  unfold update, index. destruct (i <? 0); [discriminate |].
  apply update_nat_defined.
Qed.

Section RegisterTables.

Variable getAddressMode16 : ModRm -> Exec Z.
Variable index8ToString index16ToString : Z -> string.

(** X6.  A register-direct [writeRm16] stores the pointer, not the value:
    it returns with every 8-bit, 16-bit and segment register, IP and the
    flags holding what they held; a following [readRm16] of the same
    operand returns the pointer that was written, and a register-direct
    [readRm16] of any other operand returns what it returned before. *)
Theorem writeRm16_redirects_the_table_entry
  (modrm : ModRm) (value old : Ptr16) (core : CpuCore) :
  mod_ modrm = 3 ->
  index (registers16Bit (registers core)) (rm modrm) = Some old ->
  exists core',
    writeRm16 getAddressMode16 modrm value core = Returned tt core' /\
    readRm16 getAddressMode16 index16ToString modrm core' =
      Returned (value, index16ToString (rm modrm)) core' /\
    general_registers (registers core') = general_registers (registers core) /\
    byte_registers (registers core') = byte_registers (registers core) /\
    segment_registers (registers core') =
      segment_registers (registers core) /\
    IP (registers core') = IP (registers core) /\
    flag_words (registers core') = flag_words (registers core) /\
    (forall other q,
       mod_ other = 3 -> rm other <> rm modrm ->
       readRm16 getAddressMode16 index16ToString other core =
         Returned q core ->
       readRm16 getAddressMode16 index16ToString other core' =
         Returned q core').
Proof.
  intros Hmod Hidx.
  destruct (update_defined _ _ _ value Hidx) as [t' Ht'].
  unfold writeRm16, assign16. rewrite Hmod. change (3 =? 3) with true.
  run_exec. rewrite Ht'. eexists. split; [reflexivity |].
  split; [| repeat split].
  - unfold readRm16. rewrite Hmod. change (3 =? 3) with true. run_exec.
    cbn [registers16Bit set_registers16Bit].
    rewrite (index_update_same _ _ _ _ Ht'). reflexivity.
  - intros other q Hother Hne. unfold readRm16. rewrite Hother.
    change (3 =? 3) with true. run_exec.
    cbn [registers16Bit set_registers16Bit].
    rewrite (index_update_other _ _ _ _ _ Ht' Hne).
    destruct (index (registers16Bit (registers core)) (rm other));
      [| discriminate].
    intros Hq. injection Hq as <-. reflexivity.
Qed.

(** X7.  The same for the 8-bit operand: a register-direct [writeRm8]
    changes no register value; [readRm8] of the same operand then returns
    the pointer written, and other register-direct operands are read as
    before. *)
Theorem writeRm8_redirects_the_table_entry
  (modrm : ModRm) (value old : Ptr8) (core : CpuCore) :
  mod_ modrm = 3 ->
  index (registers8Bit (registers core)) (rm modrm) = Some old ->
  exists core',
    writeRm8 getAddressMode16 modrm value core = Returned tt core' /\
    readRm8 getAddressMode16 index8ToString modrm core' =
      Returned (value, index8ToString (rm modrm)) core' /\
    general_registers (registers core') = general_registers (registers core) /\
    byte_registers (registers core') = byte_registers (registers core) /\
    segment_registers (registers core') =
      segment_registers (registers core) /\
    IP (registers core') = IP (registers core) /\
    flag_words (registers core') = flag_words (registers core) /\
    (forall other q,
       mod_ other = 3 -> rm other <> rm modrm ->
       readRm8 getAddressMode16 index8ToString other core =
         Returned q core ->
       readRm8 getAddressMode16 index8ToString other core' =
         Returned q core').
Proof.
  intros Hmod Hidx.
  destruct (update_defined _ _ _ value Hidx) as [t' Ht'].
  unfold writeRm8, assign8. rewrite Hmod. change (3 =? 3) with true.
  run_exec. rewrite Ht'. eexists. split; [reflexivity |].
  split; [| repeat split].
  - unfold readRm8. rewrite Hmod. change (3 =? 3) with true. run_exec.
    cbn [registers8Bit set_registers8Bit].
    rewrite (index_update_same _ _ _ _ Ht'). reflexivity.
  - intros other q Hother Hne. unfold readRm8. rewrite Hother.
    change (3 =? 3) with true. run_exec.
    cbn [registers8Bit set_registers8Bit].
    rewrite (index_update_other _ _ _ _ _ Ht' Hne).
    destruct (index (registers8Bit (registers core)) (rm other));
      [| discriminate].
    intros Hq. injection Hq as <-. reflexivity.
Qed.

End RegisterTables.

Lemma writeRm16_redirects_the_table_entry_witness :
  exists core',
    writeRm16 getAddressMode16_table (decodeModRm 0xD8) (Field16 rBX)
      xchg_ax_bx = Returned tt core' /\
    readRm16 getAddressMode16_table index16ToString_names
      (decodeModRm 0xD8) core' =
      Returned (Field16 rBX, index16ToString_names (rm (decodeModRm 0xD8)))
        core' /\
    general_registers (registers core') =
      general_registers (registers xchg_ax_bx).
Proof.
  destruct (writeRm16_redirects_the_table_entry getAddressMode16_table
              index16ToString_names (decodeModRm 0xD8) (Field16 rBX)
              (Field16 rAX) xchg_ax_bx)
    as [core' [Hw [Hr [Hg _]]]]; [reflexivity | reflexivity |].
  exists core'. auto.
Defined.

Lemma writeRm8_redirects_the_table_entry_witness :
  exists core',
    writeRm8 getAddressMode16_table (decodeModRm 0xD8) (Field8 rBL)
      xchg_ax_bx = Returned tt core' /\
    readRm8 getAddressMode16_table index8ToString_names
      (decodeModRm 0xD8) core' =
      Returned (Field8 rBL, index8ToString_names (rm (decodeModRm 0xD8)))
        core' /\
    byte_registers (registers core') =
      byte_registers (registers xchg_ax_bx).
Proof.
  destruct (writeRm8_redirects_the_table_entry getAddressMode16_table
              index8ToString_names (decodeModRm 0xD8) (Field8 rBL)
              (Field8 rAL) xchg_ax_bx)
    as [core' [Hw [Hr [_ [Hb _]]]]]; [reflexivity | reflexivity |].
  exists core'. auto.
Defined.

(** ** Memory operands *)

Lemma nth_error_snoc {A : Type} (l : list A) (a : A) :
  nth_error (l ++ [a]) (List.length l) = Some a.
Proof.
  rewrite nth_error_app2 by lia. rewrite Nat.sub_diag. reflexivity.
Qed.

Lemma word_of_bytes (v : Z) :
  uint8 (uint8 v) + 2 ^ 8 * uint8 (uint8 (Z.shiftr v 8)) = uint16 v.
Proof.
  unfold uint8, uint16. rewrite !Z.mod_mod by lia.
  rewrite Z.shiftr_div_pow2 by lia.
  change (2 ^ 16) with (2 ^ 8 * 2 ^ 8).
  rewrite Z.rem_mul_r by lia. reflexivity.
Qed.

Section MemoryOperands.

Variable getAddressMode16 : ModRm -> Exec Z.
Variable index8ToString index16ToString : Z -> string.

(** X8.  With [mod] other than 3, once the address decoder has returned
    address [a], [readRm8] and [readRm16] issue exactly one read at [a]
    and return a pointer to a fresh cell, not into the register file;
    loading through that pointer gives the byte, respectively the
    little-endian word, that memory held at [a]. *)
Theorem readRm_of_memory_returns_a_copy
  (modrm : ModRm) (a : Z) (core c1 : CpuCore) :
  mod_ modrm <> 3 ->
  getAddressMode16 modrm core = Returned a c1 ->
  (exists c2,
     readRm8 getAddressMode16 index8ToString modrm core =
       Returned (Cell8 (List.length (locals8 c1)), "rm/8"%string) c2 /\
     load8 (Cell8 (List.length (locals8 c1))) c2 =
       Returned (memmap.byte_at (memoryAccessController c1) (uint32 a)) c2 /\
     registers c2 = registers c1 /\
     memmap.accesses (memoryAccessController c2) =
       memmap.accesses (memoryAccessController c1) ++
       [memmap.Read8 (uint32 a)]) /\
  (exists c2,
     readRm16 getAddressMode16 index16ToString modrm core =
       Returned (Cell16 (List.length (locals16 c1)), "rm/16"%string) c2 /\
     load16 (Cell16 (List.length (locals16 c1))) c2 =
       Returned (memmap.word_at (memoryAccessController c1) (uint32 a)) c2 /\
     registers c2 = registers c1 /\
     memmap.accesses (memoryAccessController c2) =
       memmap.accesses (memoryAccessController c1) ++
       [memmap.Read16 (uint32 a)]).
Proof.
  intros Hmod Hdec.
  apply Z.eqb_neq in Hmod.
  split.
  - unfold readRm8, new8. rewrite Hmod. run_exec. rewrite Hdec.
    eexists. split; [reflexivity |].
    cbn [load8 locals8 set_locals8 set_memoryAccessController registers
         memoryAccessController memmap.accesses].
    rewrite nth_error_snoc. repeat split.
  - unfold readRm16, new16. rewrite Hmod. run_exec. rewrite Hdec.
    eexists. split; [reflexivity |].
    cbn [load16 locals16 set_locals16 set_memoryAccessController registers
         memoryAccessController memmap.accesses].
    rewrite nth_error_snoc. repeat split.
Qed.

(** X9.  With [mod] other than 3, once the address decoder has returned
    address [a] and [value] points at a cell or register holding [v],
    [writeRm16] returns with the registers as the decoder left them and
    with memory holding, little-endian at [a], the low 16 bits of [v]; it
    issues exactly one write. *)
Theorem writeRm16_to_memory_stores_the_value
  (modrm : ModRm) (value : Ptr16) (a v : Z) (core c1 : CpuCore) :
  mod_ modrm <> 3 ->
  getAddressMode16 modrm core = Returned a c1 ->
  load16 value c1 = Returned v c1 ->
  exists c2,
    writeRm16 getAddressMode16 modrm value core = Returned tt c2 /\
    memmap.word_at (memoryAccessController c2) (uint32 a) = uint16 v /\
    registers c2 = registers c1 /\
    memmap.accesses (memoryAccessController c2) =
      memmap.accesses (memoryAccessController c1) ++
      [memmap.Write16 (uint32 a) v].
Proof.
  intros Hmod Hdec Hload.
  apply Z.eqb_neq in Hmod.
  unfold writeRm16, mem_WriteAddr16. rewrite Hmod. run_exec.
  rewrite Hdec, Hload. eexists. split; [reflexivity |].
  cbn [memoryAccessController set_memoryAccessController registers
       memmap.WriteAddr16 memmap.accesses].
  repeat split.
  unfold memmap.word_at, memmap.byte_at, memmap.WriteAddr16, memmap.store.
  cbn [memmap.ram].
  destruct (Z.eqb_spec (uint32 a) (uint32 a + 1)) as [Habs | _]; [lia |].
  rewrite !Z.eqb_refl. apply word_of_bytes.
Qed.

End MemoryOperands.

Lemma readRm_of_memory_returns_a_copy_witness :
  exists c2,
    readRm8 getAddressMode16_table index8ToString_names (decodeModRm 0x07)
      bx_points_at_0200 = Returned (Cell8 0, "rm/8"%string) c2 /\
    load8 (Cell8 0) c2 = Returned 0x74 c2.
Proof.
  destruct (readRm_of_memory_returns_a_copy getAddressMode16_table
              index8ToString_names index16ToString_names
              (decodeModRm 0x07) 0x200 bx_points_at_0200 bx_points_at_0200)
    as [[c2 [Hread [Hload _]]] _].
  - vm_compute. discriminate.
  - vm_compute. reflexivity.
  - exists c2. split; [exact Hread | exact Hload].
Defined.

Lemma writeRm16_to_memory_stores_the_value_witness :
  exists c2,
    writeRm16 getAddressMode16_table (decodeModRm 0x07) (Field16 rAX)
      bx_points_at_0200 = Returned tt c2 /\
    memmap.word_at (memoryAccessController c2) 0x200 = 0x1234.
Proof.
  destruct (writeRm16_to_memory_stores_the_value getAddressMode16_table
              (decodeModRm 0x07) (Field16 rAX) 0x200 0x1234
              bx_points_at_0200 bx_points_at_0200)
    as [c2 [Hwrite [Hword _]]].
  - vm_compute. discriminate.
  - vm_compute. reflexivity.
  - vm_compute. reflexivity.
  - exists c2. split; [exact Hwrite | exact Hword].
Defined.

(** ** Jumps *)

(** X10.  The far jump loads IP from the word at code pointer + 1 and CS
    from the word at code pointer + 3, both addressed from the code
    pointer of the jump itself; the general registers and the flags are
    unchanged.  [EA 00 10 00 20] leads to CS = 0x2000, IP = 0x1000. *)
Theorem JMP_FAR_loads_offset_then_segment :
  (forall core, exists core',
     INSTR_JMP_FAR_PTR16 core = Returned tt core' /\
     IP (registers core') =
       memmap.word_at (memoryAccessController core)
         (uint32 (code_pointer (registers core) + 1)) /\
     CS (registers core') =
       memmap.word_at (memoryAccessController core)
         (uint32 (code_pointer (registers core) + 3)) /\
     general_registers (registers core') =
       general_registers (registers core) /\
     flag_words (registers core') = flag_words (registers core)) /\
  (exists core',
     INSTR_JMP_FAR_PTR16
       (placed_at 0 0x100
          (powered_on (image 0x100 [0xEA; 0x00; 0x10; 0x00; 0x20]))) =
       Returned tt core' /\
     CS (registers core') = 0x2000 /\
     IP (registers core') = 0x1000).
Proof.
  split.
  - intros core. unfold INSTR_JMP_FAR_PTR16. run_exec.
    eexists. split; [reflexivity |]. repeat split.
  - eexists. split; [vm_compute; reflexivity |]. split; reflexivity.
Qed.

Lemma near_jump_target (ip w : Z) :
  uint16 (int16 (int16 (uint16 (ip + 3)) + int16 (int16 w))) =
  uint16 (ip + 3 + int16 w).
Proof.
  rewrite int16_int16, uint16_int16, uint16_add, !uint16_int16.
  rewrite uint16_idem, <- uint16_add.
  rewrite (uint16_add (ip + 3) (int16 w)), uint16_int16, <- uint16_add.
  reflexivity.
Qed.

(** X11.  The near jump adds to IP + 3 the word that follows the opcode,
    read as a signed 16-bit number, modulo 2^16; nothing else in the
    register file changes. *)
Theorem JMP_NEAR_adds_signed_displacement (core : CpuCore) :
  exists core',
    INSTR_JMP_NEAR_REL16 core = Returned tt core' /\
    IP (registers core') =
      uint16 (IP (registers core) + 3 +
              int16 (memmap.word_at (memoryAccessController core)
                       (uint32 (code_pointer (registers core) + 1)))) /\
    CS (registers core') = CS (registers core) /\
    general_registers (registers core') =
      general_registers (registers core) /\
    flag_words (registers core') = flag_words (registers core).
Proof.
  unfold INSTR_JMP_NEAR_REL16. run_exec.
  eexists. split; [reflexivity |].
  cbn [registers set_registers IP set_IP]. split.
  - apply near_jump_target.
  - repeat split.
Qed.

(** The instruction pointer a short conditional jump leaves behind. *)
Lemma JZ_target (core : CpuCore) :
  IP (registers (final_state (INSTR_JZ_SHORT_REL8 core))) =
  if ZF (registers core) =? 0
  then uint16 (IP (registers core) + 2 + imm8_of core)
  else uint16 (IP (registers core) + 2).
Proof.
  unfold INSTR_JZ_SHORT_REL8, imm8_of. run_exec.
  destruct (ZF (registers core) =? 0);
    cbn [final_state registers set_registers IP set_IP].
  - apply short_jump_target.
  - apply uint16_idem.
Qed.

Lemma JNZ_target (core : CpuCore) :
  IP (registers (final_state (INSTR_JNZ_SHORT_REL8 core))) =
  if ZF (registers core) =? 0
  then uint16 (IP (registers core) + 2)
  else uint16 (IP (registers core) + 2 + imm8_of core).
Proof.
  unfold INSTR_JNZ_SHORT_REL8, imm8_of. run_exec.
  destruct (ZF (registers core) =? 0);
    cbn [final_state registers set_registers IP set_IP negb].
  - apply uint16_idem.
  - rewrite <- (int16_int16 (memmap.byte_at _ _)) at 1.
    apply short_jump_target.
Qed.

Lemma JCXZ_target (core : CpuCore) :
  IP (registers (final_state (INSTR_JCXZ_SHORT_REL8 core))) =
  if CX (registers core) =? 0
  then uint16 (IP (registers core) + 2 + imm8_of core)
  else uint16 (IP (registers core) + 2).
Proof.
  unfold INSTR_JCXZ_SHORT_REL8, imm8_of. run_exec.
  destruct (CX (registers core) =? 0);
    cbn [final_state registers set_registers IP set_IP].
  - apply short_jump_target.
  - apply uint16_idem.
Qed.

Lemma imm8_of_range (core : CpuCore) : 0 <= imm8_of core < 2 ^ 8.
Proof. unfold imm8_of, memmap.byte_at. apply uint8_range. Qed.

(** X12.  JCXZ returns; it transfers to IP + 2 + displacement exactly
    when CX is 0 and falls through to IP + 2 otherwise, the displacement
    byte taken unsigned; CX, the other registers and the flags are
    unchanged. *)
Theorem JCXZ_branches_on_CX (core : CpuCore) :
  exists core',
    INSTR_JCXZ_SHORT_REL8 core = Returned tt core' /\
    (CX (registers core) = 0 ->
     IP (registers core') =
       uint16 (IP (registers core) + 2 + imm8_of core)) /\
    (CX (registers core) <> 0 ->
     IP (registers core') = uint16 (IP (registers core) + 2)) /\
    general_registers (registers core') =
      general_registers (registers core) /\
    flag_words (registers core') = flag_words (registers core).
Proof.
  pose proof (JCXZ_target core) as Htarget. revert Htarget.
  unfold INSTR_JCXZ_SHORT_REL8. run_exec.
  destruct (Z.eqb_spec (CX (registers core)) 0) as [Hzero | Hnonzero];
    cbn [final_state]; intros Htarget;
    (eexists; split; [reflexivity |]); repeat split;
    try (intros; exact Htarget); try contradiction.
Qed.

Lemma JCXZ_branches_on_CX_witness :
  exists core',
    INSTR_JCXZ_SHORT_REL8 (jz_at_0200 1) = Returned tt core' /\
    IP (registers core') = 0x204.
Proof.
  destruct (JCXZ_branches_on_CX (jz_at_0200 1))
    as [core' [Hrun [Htaken _]]].
  exists core'. split; [exact Hrun |].
  apply Htaken. reflexivity.
Defined.

(** X13.  A short jump never goes backwards: as long as IP + 257 stays
    below 2^16, each of JZ, JNZ and JCXZ leaves IP between IP + 2 and
    IP + 257, whatever the displacement byte and the flags are. *)
Theorem short_jumps_only_go_forward (core : CpuCore) :
  0 <= IP (registers core) ->
  IP (registers core) + 257 < 2 ^ 16 ->
  Forall
    (fun handler : Exec unit =>
       IP (registers core) + 2 <=
         IP (registers (final_state (handler core))) <=
       IP (registers core) + 257)
    [INSTR_JZ_SHORT_REL8; INSTR_JNZ_SHORT_REL8; INSTR_JCXZ_SHORT_REL8].
Proof.
  intros Hlow Hhigh.
  pose proof (imm8_of_range core) as Himm.
  assert (Htaken : uint16 (IP (registers core) + 2 + imm8_of core) =
                   IP (registers core) + 2 + imm8_of core).
  { unfold uint16. apply Z.mod_small. lia. }
  assert (Hnext : uint16 (IP (registers core) + 2) = IP (registers core) + 2).
  { unfold uint16. apply Z.mod_small. lia. }
  repeat constructor.
  - rewrite JZ_target, Htaken, Hnext.
    destruct (ZF (registers core) =? 0); lia.
  - rewrite JZ_target, Htaken, Hnext.
    destruct (ZF (registers core) =? 0); lia.
  - rewrite JNZ_target, Htaken, Hnext.
    destruct (ZF (registers core) =? 0); lia.
  - rewrite JNZ_target, Htaken, Hnext.
    destruct (ZF (registers core) =? 0); lia.
  - rewrite JCXZ_target, Htaken, Hnext.
    destruct (CX (registers core) =? 0); lia.
  - rewrite JCXZ_target, Htaken, Hnext.
    destruct (CX (registers core) =? 0); lia.
Qed.

Lemma short_jumps_only_go_forward_witness :
  Forall
    (fun handler : Exec unit =>
       IP (registers (jz_at_0200 1)) + 2 <=
         IP (registers (final_state (handler (jz_at_0200 1)))) <=
       IP (registers (jz_at_0200 1)) + 257)
    [INSTR_JZ_SHORT_REL8; INSTR_JNZ_SHORT_REL8; INSTR_JCXZ_SHORT_REL8].
Proof.
  apply (short_jumps_only_go_forward (jz_at_0200 1)).
  - vm_compute. discriminate.
  - vm_compute. reflexivity.
Defined.

(** ** Handlers: what they leave alone *)

(** X14.  [INSTR_CMP] entered with a current opcode other than 0x3C ends
    the process with its diagnostic before anything is read or changed: IP
    is not advanced and no memory access is issued. *)
Theorem CMP_with_unknown_opcode_is_fatal (core : CpuCore) :
  currentByteAtCodePointer core <> 0x3C ->
  INSTR_CMP core = Fatal "Unrecognised CMP instruction!" core.
Proof.
  intros Hop. unfold INSTR_CMP. run_exec.
  destruct (Z.eqb_spec 0x3C (currentByteAtCodePointer core)) as [Heq | _].
  - congruence.
  - reflexivity.
Qed.

Lemma CMP_with_unknown_opcode_is_fatal_witness :
  INSTR_CMP cmp_3d_at_0100 =
    Fatal "Unrecognised CMP instruction!" cmp_3d_at_0100.
Proof.
  apply (CMP_with_unknown_opcode_is_fatal cmp_3d_at_0100).
  vm_compute. discriminate.
Defined.

(** X15.  CMP AL, imm8 defines ZF and CF only: it returns with IP
    advanced by 2 modulo 2^16 and with AL, every other register, and the
    flags PF, AF, SF, TF, IF, DF and OF holding what they held; it issues one
    memory read and no write. *)
Theorem CMP_changes_only_ZF_CF_and_IP (core : CpuCore) :
  currentByteAtCodePointer core = 0x3C ->
  exists core',
    INSTR_CMP core = Returned tt core' /\
    IP (registers core') = uint16 (IP (registers core) + 2) /\
    byte_registers (registers core') = byte_registers (registers core) /\
    general_registers (registers core') =
      general_registers (registers core) /\
    segment_registers (registers core') =
      segment_registers (registers core) /\
    [PF (registers core'); AF (registers core'); SF (registers core');
     TF (registers core'); IF_ (registers core'); DF (registers core');
     OF (registers core')] =
    [PF (registers core); AF (registers core); SF (registers core);
     TF (registers core); IF_ (registers core); DF (registers core);
     OF (registers core)] /\
    memmap.ram (memoryAccessController core') =
      memmap.ram (memoryAccessController core) /\
    memmap.accesses (memoryAccessController core') =
      memmap.accesses (memoryAccessController core) ++
      [memmap.Read8 (uint32 (code_pointer (registers core) + 1))].
Proof.
  intros Hop. unfold INSTR_CMP. run_exec. rewrite Hop.
  change (0x3C =? 0x3C) with true. cbv beta iota.
  destruct (_ =? _); [| destruct (_ <? _); [| destruct (_ >? _)]];
    (eexists; split; [reflexivity |]);
    cbn [registers set_registers memoryAccessController
         set_memoryAccessController IP set_IP set_ZF set_CF];
    rewrite uint16_idem; repeat split.
Qed.

Lemma CMP_changes_only_ZF_CF_and_IP_witness :
  exists core',
    INSTR_CMP (cmp_al_5 4) = Returned tt core' /\
    IP (registers core') = 0x102 /\
    byte_registers (registers core') =
      byte_registers (registers (cmp_al_5 4)).
Proof.
  destruct (CMP_changes_only_ZF_CF_and_IP (cmp_al_5 4))
    as [core' [Hrun [Hip [Hbytes _]]]]; [reflexivity |].
  exists core'. split; [exact Hrun |]. split; [exact Hip | exact Hbytes].
Defined.

(** X16.  The one-byte instructions.  NOP and CLI are the same function:
    both return with IP advanced by 1 modulo 2^16 (0xFFFF wraps to 0) and
    all else as it was, so CLI leaves the flags, IF included, unchanged.
    CLD returns with DF = 0, IP advanced by 1, and the other flags and the
    8-bit, 16-bit and segment registers unchanged. *)
Theorem one_byte_instructions (core : CpuCore) :
  INSTR_CLI core = INSTR_NOP core /\
  INSTR_NOP core =
    Returned tt
      (set_registers
         (set_IP (uint16 (IP (registers core) + 1)) (registers core)) core) /\
  (exists core',
     INSTR_CLD core = Returned tt core' /\
     DF (registers core') = 0 /\
     IP (registers core') = uint16 (IP (registers core) + 1) /\
     [CF (registers core'); PF (registers core'); AF (registers core');
      ZF (registers core'); SF (registers core'); TF (registers core');
      IF_ (registers core'); OF (registers core')] =
     [CF (registers core); PF (registers core); AF (registers core);
      ZF (registers core); SF (registers core); TF (registers core);
      IF_ (registers core); OF (registers core)] /\
     general_registers (registers core') =
       general_registers (registers core) /\
     byte_registers (registers core') = byte_registers (registers core) /\
     segment_registers (registers core') =
       segment_registers (registers core) /\
     memoryAccessController core' = memoryAccessController core).
Proof.
  split; [reflexivity |]. split.
  - unfold INSTR_NOP. run_exec. now rewrite uint16_idem.
  - unfold INSTR_CLD. run_exec. eexists. split; [reflexivity |].
    cbn [registers set_registers IP set_IP set_DF DF
         memoryAccessController].
    rewrite uint16_idem. repeat split.
Qed.

(** X17.  None of the handlers for jumps, flags, CMP, TEST, XCHG and NOP
    sends a bus message, changes the mode or [CR0], writes to memory, or
    touches the recorded instruction addresses and the current opcode:
    whatever the outcome, the state outside the register file differs at
    most in the list of memory reads. *)
Theorem handlers_stay_inside_the_register_file
  (handler : Exec unit) (core : CpuCore) :
  In handler handlers_jumps_and_flags ->
  same_outside_registers core (final_state (handler core)).
Proof.
  unfold handlers_jumps_and_flags, same_outside_registers.
  intros Hin. cbn [In] in Hin.
  repeat (destruct Hin as [<- | Hin]); [.. | contradiction].
  - unfold INSTR_JMP_FAR_PTR16. run_exec. repeat split.
  - unfold INSTR_JMP_NEAR_REL16. run_exec. repeat split.
  - unfold INSTR_JCXZ_SHORT_REL8. run_exec.
    destruct (CX (registers core) =? 0); repeat split.
  - unfold INSTR_JZ_SHORT_REL8. run_exec.
    destruct (ZF (registers core) =? 0); repeat split.
  - unfold INSTR_JNZ_SHORT_REL8. run_exec.
    destruct (ZF (registers core) =? 0); repeat split.
  - unfold INSTR_CLI. run_exec. repeat split.
  - unfold INSTR_CLD. run_exec. repeat split.
  - unfold INSTR_TEST_AL. run_exec.
    destruct (Z.land _ _ =? 0); repeat split.
  - unfold INSTR_CMP. run_exec.
    destruct (0x3C =? _); [| repeat split].
    destruct (_ =? _); [| destruct (_ <? _); [| destruct (_ >? _)]];
      repeat split.
  - unfold INSTR_XCHG, load16. run_exec.
    destruct (index _ _) as [[r1 | n1] |]; [| | repeat split].
    + destruct (index _ _) as [[r2 | n2] |].
      * destruct r1; destruct r2; repeat split.
      * destruct r1; cbn [locals16 set_memoryAccessController];
          destruct (nth_error _ _); repeat split.
      * destruct r1; repeat split.
    + cbn [locals16 set_memoryAccessController].
      destruct (nth_error (locals16 core) n1); [| repeat split].
      destruct (index _ _) as [[r2 | n2] |].
      * destruct r2; repeat split.
      * cbn [locals16 set_memoryAccessController].
        destruct (nth_error _ _); repeat split.
      * repeat split.
  - unfold INSTR_NOP. run_exec. repeat split.
Qed.

Lemma handlers_stay_inside_the_register_file_witness :
  same_outside_registers xchg_ax_bx (final_state (INSTR_XCHG xchg_ax_bx)).
Proof.
  apply (handlers_stay_inside_the_register_file INSTR_XCHG xchg_ax_bx).
  cbn. tauto.
Defined.

(** ** MOV (package cpu) *)

Section MovProperties.

Variable getReg16 getRm16 : Exec Ptr16.

(** X18.  MOV AL, imm8 (B0) and MOV AH, imm8 (B4) write the immediate
    byte to AL, respectively AH, and advance IP by 2 modulo 2^16.  The
    8-bit registers are locations of their own: AX and the other 16-bit
    registers keep their values, as do the other 8-bit registers and the
    flags. *)
Theorem MOV_imm8_writes_the_byte_register_only (core : CpuCore) :
  (currentByteAtCodePointer core = 0xB0 ->
   exists core',
     INSTR_MOV getReg16 getRm16 core = Returned tt core' /\
     byte_registers (registers core') =
       imm8_of core :: tl (byte_registers (registers core)) /\
     IP (registers core') = uint16 (IP (registers core) + 2) /\
     general_registers (registers core') =
       general_registers (registers core) /\
     flag_words (registers core') = flag_words (registers core)) /\
  (currentByteAtCodePointer core = 0xB4 ->
   exists core',
     INSTR_MOV getReg16 getRm16 core = Returned tt core' /\
     AH (registers core') = imm8_of core /\
     [AL (registers core'); CL (registers core'); DL (registers core');
      BL (registers core'); CH (registers core'); DH (registers core');
      BH (registers core')] =
     [AL (registers core); CL (registers core); DL (registers core);
      BL (registers core); CH (registers core); DH (registers core);
      BH (registers core)] /\
     IP (registers core') = uint16 (IP (registers core) + 2) /\
     general_registers (registers core') =
       general_registers (registers core) /\
     flag_words (registers core') = flag_words (registers core)).
Proof.
  split; intros Hop; unfold INSTR_MOV, imm8_of; run_exec; rewrite Hop;
    decide_opcode; (eexists; split; [reflexivity |]);
    cbn [registers set_registers IP set_IP set_AL set_AH];
    rewrite uint16_idem; repeat split.
Qed.

(** X19.  MOV BX, imm16 (BB) writes the little-endian word that follows
    the opcode to BX and advances IP by 3 modulo 2^16; BL and BH, the other
    16-bit registers, the segment registers and the flags keep their
    values. *)
Theorem MOV_BX_imm16_writes_BX_only (core : CpuCore) :
  currentByteAtCodePointer core = 0xBB ->
  exists core',
    INSTR_MOV getReg16 getRm16 core = Returned tt core' /\
    BX (registers core') =
      memmap.word_at (memoryAccessController core)
        (uint32 (code_pointer (registers core) + 1)) /\
    IP (registers core') = uint16 (IP (registers core) + 3) /\
    byte_registers (registers core') = byte_registers (registers core) /\
    [AX (registers core'); CX (registers core'); DX (registers core');
     SP (registers core'); BP (registers core'); SI (registers core');
     DI (registers core')] =
    [AX (registers core); CX (registers core); DX (registers core);
     SP (registers core); BP (registers core); SI (registers core);
     DI (registers core)] /\
    segment_registers (registers core') =
      segment_registers (registers core) /\
    flag_words (registers core') = flag_words (registers core).
Proof.
  intros Hop. unfold INSTR_MOV. run_exec. rewrite Hop. decide_opcode.
  eexists. split; [reflexivity |].
  cbn [registers set_registers IP set_IP set_BX].
  rewrite uint16_idem. repeat split.
Qed.

(** X20.  [INSTR_MOV] knows six opcodes only.  Entered with any other
    current opcode, among them B1..B3, B5..BA and BC..BF of the
    MOV-immediate family, it ends the process with its diagnostic and has
    changed nothing. *)
Theorem MOV_with_unknown_opcode_is_fatal (core : CpuCore) :
  ~ In (currentByteAtCodePointer core) mov_opcodes ->
  INSTR_MOV getReg16 getRm16 core =
    Fatal "Unrecognised MOV instruction!" core.
Proof.
  intros Hnot. unfold INSTR_MOV. run_exec.
  unfold mov_opcodes in Hnot. cbn [In] in Hnot.
  repeat match goal with
  | |- context [Z.eqb ?a (currentByteAtCodePointer core)] =>
      destruct (Z.eqb_spec a (currentByteAtCodePointer core));
      [exfalso; tauto |]
  end.
  reflexivity.
Qed.

(** MOV r/m16, Sreg (8C) looks the segment register up before the
    destination is resolved: when the [reg] field of the ModR/M byte is 4
    or more and the segment table has its four entries, the handler panics
    with an index out of range, all registers unchanged and IP not
    advanced. *)
Theorem MOV_from_Sreg_beyond_DS_panics (core : CpuCore) :
  currentByteAtCodePointer core = 0x8C ->
  List.length (registersSegmentRegisters (registers core)) = 4%nat ->
  4 <= reg (modrm_of core) ->
  exists c1,
    INSTR_MOV getReg16 getRm16 core =
      Panic "runtime error: index out of range" c1 /\
    registers c1 = registers core /\
    memmap.ram (memoryAccessController c1) =
      memmap.ram (memoryAccessController core).
Proof.
  intros Hop Hlen Hreg. unfold INSTR_MOV. run_exec. rewrite Hop.
  decide_opcode.
  unfold modrm_of, imm8_of in Hreg.
  assert (Hidx :
    index (registersSegmentRegisters (registers core))
      (reg (decodeModRm
              (memmap.byte_at (memoryAccessController core)
                 (uint32 (code_pointer (registers core) + 1))))) = None).
  { unfold index. destruct (Z.ltb_spec (reg (decodeModRm
      (memmap.byte_at (memoryAccessController core)
         (uint32 (code_pointer (registers core) + 1))))) 0); [reflexivity |].
    apply nth_error_None. lia. }
  rewrite Hidx. eexists. split; [reflexivity |]. split; reflexivity.
Qed.

End MovProperties.

Lemma MOV_imm8_writes_the_byte_register_only_witness :
  exists core',
    INSTR_MOV getReg16_by_reg getRm16_by_rm mov_al_2a = Returned tt core' /\
    byte_registers (registers core') = [0x2A; 0; 0; 0; 0; 0; 0; 0] /\
    IP (registers core') = 0x102 /\
    AX (registers core') = 0x1234.
Proof.
  destruct (proj1 (MOV_imm8_writes_the_byte_register_only
                     getReg16_by_reg getRm16_by_rm mov_al_2a))
    as [core' [Hrun [Hbytes [Hip [Hgeneral _]]]]]; [reflexivity |].
  exists core'. split; [exact Hrun |]. split; [exact Hbytes |].
  split; [exact Hip |].
  exact (f_equal (fun l => nth 0 l 0) Hgeneral).
Defined.

Lemma MOV_BX_imm16_writes_BX_only_witness :
  exists core',
    INSTR_MOV getReg16_by_reg getRm16_by_rm mov_bx_1234 =
      Returned tt core' /\
    BX (registers core') = 0x1234 /\
    IP (registers core') = 0x103.
Proof.
  destruct (MOV_BX_imm16_writes_BX_only getReg16_by_reg getRm16_by_rm
              mov_bx_1234)
    as [core' [Hrun [Hbx [Hip _]]]]; [reflexivity |].
  exists core'. split; [exact Hrun |]. split; [exact Hbx | exact Hip].
Defined.

Lemma MOV_with_unknown_opcode_is_fatal_witness :
  INSTR_MOV getReg16_by_reg getRm16_by_rm mov_cl_2a =
    Fatal "Unrecognised MOV instruction!" mov_cl_2a.
Proof.
  apply (MOV_with_unknown_opcode_is_fatal getReg16_by_reg getRm16_by_rm
           mov_cl_2a).
  vm_compute. intuition discriminate.
Defined.

Lemma MOV_from_Sreg_beyond_DS_panics_witness :
  exists c1,
    INSTR_MOV getReg16_by_reg getRm16_by_rm mov_ax_sreg4 =
      Panic "runtime error: index out of range" c1 /\
    registers c1 = registers mov_ax_sreg4.
Proof.
  destruct (MOV_from_Sreg_beyond_DS_panics getReg16_by_reg getRm16_by_rm
              mov_ax_sreg4)
    as [c1 [Hrun [Hregs _]]];
    [reflexivity | reflexivity | vm_compute; discriminate |].
  exists c1. split; [exact Hrun | exact Hregs].
Defined.

Section MovRegisterOperands.

Variable getReg16 getRm16 : Exec Ptr16.

(** X21.  MOV r16, r/m16 (8B): when [getReg16] resolves the destination to
    a 16-bit register and [getRm16] the source to a pointer holding [v],
    the handler returns with that register holding [v] and IP advanced by
    2 modulo 2^16; the 8-bit registers, the segment registers and the flags
    are as operand resolution left them. *)
Theorem MOV_r16_rm16_copies_the_source
  (d : Reg16) (src : Ptr16) (v : Z) (core c1 c2 : CpuCore) :
  currentByteAtCodePointer core = 0x8B ->
  getReg16 core = Returned (Field16 d) c1 ->
  getRm16 c1 = Returned src c2 ->
  load16 src c2 = Returned v c2 ->
  exists core',
    INSTR_MOV getReg16 getRm16 core = Returned tt core' /\
    load16 (Field16 d) core' = Returned v core' /\
    IP (registers core') = uint16 (IP (registers c2) + 2) /\
    byte_registers (registers core') = byte_registers (registers c2) /\
    segment_registers (registers core') =
      segment_registers (registers c2) /\
    flag_words (registers core') = flag_words (registers c2).
Proof.
  intros Hop Hdest Hsrc Hload. unfold INSTR_MOV. run_exec. rewrite Hop.
  decide_opcode. rewrite Hdest, Hsrc, Hload.
  destruct d; (eexists; split; [reflexivity |]);
    cbn [load16 gets registers set_registers IP set_IP
         set_AX set_CX set_DX set_BX set_SP set_BP set_SI set_DI];
    rewrite uint16_idem; repeat split.
Qed.

(** MOV Sreg, r/m16 (8E): when [getRm16] resolves the source to a
    pointer holding [v] and the [reg] field of the ModR/M byte names an
    entry of the segment table, the handler returns with that segment
    register, CS not excepted, holding [v] and IP advanced by 2 modulo
    2^16; the general registers and the flags are unchanged. *)
Theorem MOV_Sreg_rm16_loads_the_segment_register
  (s : SegReg) (src : Ptr16) (v : Z) (core c2 : CpuCore) :
  currentByteAtCodePointer core = 0x8E ->
  getRm16 (final_state (consumeModRm core)) = Returned src c2 ->
  index (registersSegmentRegisters (registers c2)) (reg (modrm_of core)) =
    Some (FieldSeg s) ->
  load16 src c2 = Returned v c2 ->
  exists core',
    INSTR_MOV getReg16 getRm16 core = Returned tt core' /\
    loadSeg (FieldSeg s) core' = Returned v core' /\
    IP (registers core') = uint16 (IP (registers c2) + 2) /\
    general_registers (registers core') =
      general_registers (registers c2) /\
    byte_registers (registers core') = byte_registers (registers c2) /\
    flag_words (registers core') = flag_words (registers c2).
Proof.
  intros Hop Hsrc Hidx Hload. revert Hsrc Hidx.
  unfold INSTR_MOV, modrm_of, imm8_of. run_exec. rewrite Hop.
  decide_opcode. cbn [final_state]. intros Hsrc Hidx.
  rewrite Hsrc, Hidx, Hload.
  destruct s; (eexists; split; [reflexivity |]);
    cbn [loadSeg gets registers set_registers IP set_IP
         set_ES set_CS set_SS set_DS];
    rewrite uint16_idem; repeat split.
Qed.

End MovRegisterOperands.

Lemma MOV_r16_rm16_copies_the_source_witness :
  exists core',
    INSTR_MOV getReg16_by_reg getRm16_by_rm mov_ax_bx = Returned tt core' /\
    load16 (Field16 rAX) core' = Returned 0x1234 core' /\
    IP (registers core') = 0x102.
Proof.
  destruct (MOV_r16_rm16_copies_the_source getReg16_by_reg getRm16_by_rm
              rAX (Field16 rBX) 0x1234 mov_ax_bx
              (final_state (getReg16_by_reg mov_ax_bx))
              (final_state
                 (getRm16_by_rm (final_state (getReg16_by_reg mov_ax_bx)))))
    as [core' [Hrun [Hload [Hip _]]]];
    [reflexivity | vm_compute; reflexivity | vm_compute; reflexivity
     | vm_compute; reflexivity |].
  exists core'. split; [exact Hrun |]. split; [exact Hload | exact Hip].
Defined.

Lemma MOV_Sreg_rm16_loads_the_segment_register_witness :
  exists core',
    INSTR_MOV getReg16_by_reg getRm16_by_rm mov_ds_ax = Returned tt core' /\
    loadSeg (FieldSeg rDS) core' = Returned 0x1234 core' /\
    IP (registers core') = 0x102.
Proof.
  destruct (MOV_Sreg_rm16_loads_the_segment_register getReg16_by_reg
              getRm16_by_rm rDS (Field16 rAX) 0x1234 mov_ds_ax
              (final_state
                 (getRm16_by_rm (final_state (consumeModRm mov_ds_ax)))))
    as [core' [Hrun [Hload [Hip _]]]];
    [reflexivity | vm_compute; reflexivity | vm_compute; reflexivity
     | vm_compute; reflexivity |].
  exists core'. split; [exact Hrun |]. split; [exact Hload | exact Hip].
Defined.

(** ** Port instructions *)

(** X22.  [INSTR_IN] and [INSTR_OUT] entered with an opcode they have no
    case for end the process, both with the diagnostic of the IN handler;
    nothing has been read, written or advanced. *)
Theorem port_handlers_with_unknown_opcode_are_fatal
  (dev : io.IOPortAccessController) (core : CpuCore) :
  (~ In (currentByteAtCodePointer core) in_opcodes ->
   INSTR_IN dev core =
     Fatal "Unrecognised IN (port read) instruction!" core) /\
  (~ In (currentByteAtCodePointer core) out_opcodes ->
   INSTR_OUT dev core =
     Fatal "Unrecognised IN (port read) instruction!" core).
Proof.
  split; intros Hnot; [unfold INSTR_IN | unfold INSTR_OUT]; run_exec;
    unfold in_opcodes, out_opcodes in Hnot; cbn [In] in Hnot;
    repeat match goal with
    | |- context [Z.eqb ?a (currentByteAtCodePointer core)] =>
        destruct (Z.eqb_spec a (currentByteAtCodePointer core));
        [exfalso; tauto |]
    end;
    reflexivity.
Qed.

Lemma port_handlers_with_unknown_opcode_are_fatal_witness :
  INSTR_IN quiet_ports e8_at_0100 =
    Fatal "Unrecognised IN (port read) instruction!" e8_at_0100 /\
  INSTR_OUT quiet_ports e8_at_0100 =
    Fatal "Unrecognised IN (port read) instruction!" e8_at_0100.
Proof.
  split.
  - apply (proj1 (port_handlers_with_unknown_opcode_are_fatal
                    quiet_ports e8_at_0100)).
    vm_compute. intuition discriminate.
  - apply (proj2 (port_handlers_with_unknown_opcode_are_fatal
                    quiet_ports e8_at_0100)).
    vm_compute. intuition discriminate.
Defined.

(** X23.  For each opcode it knows, [INSTR_OUT] returns having issued
    exactly one port write and no port read: AL to port imm8 (E6), AX to
    port imm8 (E7), AL to port DX (EE), AX to port DX (EF). *)
Theorem OUT_issues_one_port_write
  (dev : io.IOPortAccessController) (core : CpuCore) :
  let r := registers core in
  (currentByteAtCodePointer core = 0xE6 ->
   exists core',
     INSTR_OUT dev core =
       Returned (io.WriteAddr8 dev (uint16 (imm8_of core)) (AL r)) core') /\
  (currentByteAtCodePointer core = 0xE7 ->
   exists core',
     INSTR_OUT dev core =
       Returned (io.WriteAddr16 dev (uint16 (imm8_of core)) (AX r)) core') /\
  (currentByteAtCodePointer core = 0xEE ->
   exists core',
     INSTR_OUT dev core =
       Returned (io.WriteAddr8 dev (uint16 (DX r)) (AL r)) core') /\
  (currentByteAtCodePointer core = 0xEF ->
   exists core',
     INSTR_OUT dev core =
       Returned (io.WriteAddr16 dev (uint16 (DX r)) (AX r)) core').
Proof.
  cbv zeta.
  repeat split; intros Hop; unfold INSTR_OUT, imm8_of; run_exec;
    rewrite Hop; decide_opcode; eexists; reflexivity.
Qed.

Lemma OUT_issues_one_port_write_witness :
  exists core',
    INSTR_OUT quiet_ports out_61_al =
      Returned (io.WriteAddr8 quiet_ports 0x61 0xA5) core'.
Proof.
  destruct (OUT_issues_one_port_write quiet_ports out_61_al)
    as [He6 _].
  destruct (He6 eq_refl) as [core' Hrun].
  exists core'. exact Hrun.
Defined.

(** X24.  For each opcode it knows, [INSTR_OUT] returns with IP advanced
    by 2 modulo 2^16, the one-byte forms EE and EF included, and with every
    other register and flag unchanged; it writes nothing to memory. *)
Theorem OUT_changes_only_IP
  (dev : io.IOPortAccessController) (core : CpuCore) :
  In (currentByteAtCodePointer core) out_opcodes ->
  exists dev' core',
    INSTR_OUT dev core = Returned dev' core' /\
    IP (registers core') = uint16 (IP (registers core) + 2) /\
    byte_registers (registers core') = byte_registers (registers core) /\
    general_registers (registers core') =
      general_registers (registers core) /\
    segment_registers (registers core') =
      segment_registers (registers core) /\
    flag_words (registers core') = flag_words (registers core) /\
    memmap.ram (memoryAccessController core') =
      memmap.ram (memoryAccessController core).
Proof.
  unfold out_opcodes. cbn [In]. intros Hop.
  unfold INSTR_OUT. run_exec.
  destruct Hop as [<- | [<- | [<- | [<- | []]]]]; decide_opcode;
    (do 2 eexists; split; [reflexivity |]);
    cbn [registers set_registers IP set_IP memoryAccessController
         set_memoryAccessController memmap.ram];
    rewrite uint16_idem; repeat split.
Qed.

Lemma OUT_changes_only_IP_witness :
  exists dev' core',
    INSTR_OUT quiet_ports out_61_al = Returned dev' core' /\
    IP (registers core') = 0x102 /\
    byte_registers (registers core') =
      byte_registers (registers out_61_al).
Proof.
  destruct (OUT_changes_only_IP quiet_ports out_61_al)
    as [dev' [core' [Hrun [Hip [Hbytes _]]]]].
  - vm_compute. tauto.
  - exists dev', core'. split; [exact Hrun |].
    split; [exact Hip | exact Hbytes].
Defined.

(** X25.  For each opcode it knows, [INSTR_IN] returns with IP advanced
    by 2 modulo 2^16 and with the flags, the segment registers, memory and
    the port contents unchanged, having issued exactly one port read.  E4
    loads AL with the byte at port imm8 and E5 with the byte at port DX; the
    other 8-bit registers and all 16-bit registers, AX among them, keep
    their values.  EC loads AX with the word at the port named by the
    16-bit immediate and ED with the word at port DX; the other 16-bit
    registers and all 8-bit registers keep their values. *)
Theorem IN_loads_AL_or_AX_only
  (dev : io.IOPortAccessController) (core : CpuCore) :
  In (currentByteAtCodePointer core) in_opcodes ->
  exists dev' core',
    INSTR_IN dev core = Returned dev' core' /\
    IP (registers core') = uint16 (IP (registers core) + 2) /\
    io.ports dev' = io.ports dev /\
    flag_words (registers core') = flag_words (registers core) /\
    segment_registers (registers core') =
      segment_registers (registers core) /\
    memmap.ram (memoryAccessController core') =
      memmap.ram (memoryAccessController core) /\
    (currentByteAtCodePointer core = 0xE4 ->
     (AL (registers core'), dev') =
       io.ReadAddr8 dev (uint16 (imm8_of core)) /\
     tl (byte_registers (registers core')) =
       tl (byte_registers (registers core)) /\
     general_registers (registers core') =
       general_registers (registers core)) /\
    (currentByteAtCodePointer core = 0xE5 ->
     (AL (registers core'), dev') =
       io.ReadAddr8 dev (uint16 (DX (registers core))) /\
     tl (byte_registers (registers core')) =
       tl (byte_registers (registers core)) /\
     general_registers (registers core') =
       general_registers (registers core)) /\
    (currentByteAtCodePointer core = 0xEC ->
     (AX (registers core'), dev') =
       io.ReadAddr16 dev
         (memmap.word_at (memoryAccessController core)
            (uint32 (code_pointer (registers core) + 1))) /\
     byte_registers (registers core') = byte_registers (registers core) /\
     tl (general_registers (registers core')) =
       tl (general_registers (registers core))) /\
    (currentByteAtCodePointer core = 0xED ->
     (AX (registers core'), dev') =
       io.ReadAddr16 dev (uint16 (DX (registers core))) /\
     byte_registers (registers core') = byte_registers (registers core) /\
     tl (general_registers (registers core')) =
       tl (general_registers (registers core))).
Proof.
  unfold in_opcodes. cbn [In]. intros Hop.
  unfold INSTR_IN, imm8_of. run_exec.
  destruct Hop as [Hop | [Hop | [Hop | [Hop | []]]]]; rewrite <- Hop;
    decide_opcode;
    (do 2 eexists; split; [reflexivity |]);
    cbn [registers set_registers IP set_IP io.ports
         memoryAccessController set_memoryAccessController memmap.ram];
    rewrite uint16_idem; repeat split;
    discriminate.
Qed.

Lemma IN_loads_AL_or_AX_only_witness :
  exists dev' core',
    INSTR_IN quiet_ports in_al_61 = Returned dev' core' /\
    IP (registers core') = 0x102 /\
    AL (registers core') = 0 /\
    AX (registers core') = 0x1234.
Proof.
  destruct (IN_loads_AL_or_AX_only quiet_ports in_al_61)
    as [dev' [core' [Hrun [Hip [_ [_ [_ [_ [He4 _]]]]]]]]].
  - vm_compute. tauto.
  - destruct (He4 eq_refl) as [Hal [_ Hgeneral]].
    exists dev', core'. split; [exact Hrun |]. split; [exact Hip |].
    split; [exact (f_equal fst Hal) |].
    exact (f_equal (fun l => nth 0 l 0) Hgeneral).
Defined.

(** ** MOV (package intel8086) *)

Lemma uint16_uint32 (x : Z) : uint16 (uint32 x) = uint16 x.
Proof.
  unfold uint16, uint32. change (2 ^ 32) with (2 ^ 16 * 2 ^ 16).
  rewrite Z.rem_mul_r by lia.
  rewrite (Z.mul_comm (2 ^ 16)), Z.mod_add by lia.
  apply Z.mod_mod. lia.
Qed.

Lemma uint32_add_l (x y : Z) : uint32 (uint32 x + y) = uint32 (x + y).
Proof. unfold uint32. apply Zplus_mod_idemp_l. Qed.

Lemma uint16_sub_uint32 (x y : Z) : uint16 (uint32 x - y) = uint16 (x - y).
Proof.
  unfold uint16. rewrite Zminus_mod. fold (uint16 (uint32 x)).
  rewrite uint16_uint32. unfold uint16. rewrite <- Zminus_mod. reflexivity.
Qed.

(** The advance of IP at the end of the handler, for a cursor that was
    moved by [1 + n] bytes. *)
Lemma IP_advance (ip addr start n : Z) :
  uint16 (ip + uint16 (uint32 (uint32 (uint32 (addr + 1) + n) - start))) =
  uint16 (ip + (addr + 1 + n - start)).
Proof.
  rewrite uint16_add_r.
  rewrite <- (uint16_add_r ip (uint32 _)), uint16_uint32.
  rewrite uint16_sub_uint32.
  replace (uint32 (addr + 1) + n - start)
    with (uint32 (addr + 1) - (start - n)) by lia.
  rewrite uint16_sub_uint32, uint16_add_r. f_equal. lia.
Qed.

Section Mov386.

Import intel8086.

Variable consumeModRm : DecodeCursor -> Exec (ModRm * Z * DecodeCursor).
Variable getAddressMode16 : ModRm -> DecodeCursor -> Exec (Z * DecodeCursor).

(** X26.  MOV r8, imm8 for the whole family B0..B7: with the register
    table as constructed, the 8-bit register numbered [opcode - 0xB0]
    receives the byte that follows the opcode and no other 8-bit register
    changes; the cursor has moved by 2, IP is advanced by the distance of the
    cursor from the start of decoding, modulo 2^16, and the 16-bit registers
    and the flags keep their values. *)
Theorem MOV386_r8_imm8_family (k : DecodeCursor) (core : CpuCore) :
  In (currentOpCodeBeingExecuted k) r8_imm8_opcodes ->
  registers8Bit (registers core) = fresh_registers8Bit ->
  exists k' core',
    INSTR_MOV consumeModRm getAddressMode16 k core = Returned k' core' /\
    update (byte_registers (registers core))
      (currentOpCodeBeingExecuted k - 0xB0)
      (memmap.byte_at (memoryAccessController core)
         (uint32 (currentByteAddr k + 1))) =
      Some (byte_registers (registers core')) /\
    currentByteAddr k' = uint32 (currentByteAddr k + 2) /\
    IP (registers core') =
      uint16 (IP (registers core) +
              (currentByteAddr k + 2 - currentByteDecodeStart k)) /\
    general_registers (registers core') =
      general_registers (registers core) /\
    flag_words (registers core') = flag_words (registers core).
Proof.
  intros Hop Htable. unfold INSTR_MOV, advance. run_exec.
  cbn [currentOpCodeBeingExecuted currentByteAddr currentByteDecodeStart].
  unfold r8_imm8_opcodes in Hop. cbn [In] in Hop.
  assert (Hip :
    uint16 (IP (registers core) +
            uint16 (uint32 (uint32 (uint32 (currentByteAddr k + 1) + 1) -
                            currentByteDecodeStart k))) =
    uint16 (IP (registers core) +
            (currentByteAddr k + 2 - currentByteDecodeStart k))).
  { rewrite IP_advance. f_equal. lia. }
  assert (Hk : uint32 (uint32 (currentByteAddr k + 1) + 1) =
               uint32 (currentByteAddr k + 2)).
  { rewrite uint32_add_l. f_equal. lia. }
  repeat (destruct Hop as [<- | Hop]); [.. | contradiction];
    unfold r8_imm8_opcodes; cbn [existsb]; decide_opcode; cbn [orb];
    cbv beta iota; rewrite Htable; decide_index;
    (do 2 eexists; split; [reflexivity |]);
    cbn [store8 modify_registers modify registers set_registers
         memoryAccessController set_memoryAccessController
         currentByteAddr IP set_IP
         set_AL set_CL set_DL set_BL set_AH set_CH set_DH set_BH];
    (split; [reflexivity |]); (split; [exact Hk |]);
    (split; [exact Hip |]); split; reflexivity.
Qed.

(** X27.  MOV r16, imm16 for the whole family B8..BF: with the register
    table as constructed, the 16-bit register numbered [opcode - 0xB8]
    receives the little-endian word that follows the opcode and no other
    16-bit register changes; the cursor has moved by 3, IP is advanced by
    the distance of the cursor from the start of decoding, modulo 2^16, and
    the 8-bit registers and the flags keep their values. *)
Theorem MOV386_r16_imm16_family (k : DecodeCursor) (core : CpuCore) :
  In (currentOpCodeBeingExecuted k) r16_imm16_opcodes ->
  registers16Bit (registers core) = fresh_registers16Bit ->
  exists k' core',
    INSTR_MOV consumeModRm getAddressMode16 k core = Returned k' core' /\
    update (general_registers (registers core))
      (currentOpCodeBeingExecuted k - 0xB8)
      (memmap.word_at (memoryAccessController core)
         (uint32 (currentByteAddr k + 1))) =
      Some (general_registers (registers core')) /\
    currentByteAddr k' = uint32 (currentByteAddr k + 3) /\
    IP (registers core') =
      uint16 (IP (registers core) +
              (currentByteAddr k + 3 - currentByteDecodeStart k)) /\
    byte_registers (registers core') = byte_registers (registers core) /\
    flag_words (registers core') = flag_words (registers core).
Proof.
  intros Hop Htable. unfold INSTR_MOV, advance. run_exec.
  cbn [currentOpCodeBeingExecuted currentByteAddr currentByteDecodeStart].
  unfold r16_imm16_opcodes in Hop. cbn [In] in Hop.
  assert (Hip :
    uint16 (IP (registers core) +
            uint16 (uint32 (uint32 (uint32 (currentByteAddr k + 1) + 2) -
                            currentByteDecodeStart k))) =
    uint16 (IP (registers core) +
            (currentByteAddr k + 3 - currentByteDecodeStart k))).
  { rewrite IP_advance. f_equal. lia. }
  assert (Hk : uint32 (uint32 (currentByteAddr k + 1) + 2) =
               uint32 (currentByteAddr k + 3)).
  { rewrite uint32_add_l. f_equal. lia. }
  repeat (destruct Hop as [<- | Hop]); [.. | contradiction];
    unfold r8_imm8_opcodes, r16_imm16_opcodes; cbn [existsb];
    decide_opcode; cbn [orb]; cbv beta iota; rewrite Htable; decide_index;
    (do 2 eexists; split; [reflexivity |]);
    cbn [store16 modify_registers modify registers set_registers
         memoryAccessController set_memoryAccessController
         currentByteAddr IP set_IP
         set_AX set_CX set_DX set_BX set_SP set_BP set_SI set_DI];
    (split; [reflexivity |]); (split; [exact Hk |]);
    (split; [exact Hip |]); split; reflexivity.
Qed.

(** X28.  Entered with an opcode it has no case for, 88 and 89 among them,
    [INSTR_MOV] ends the process with its diagnostic; the registers, IP
    included, and memory are as they were. *)
Theorem MOV386_with_unknown_opcode_is_fatal
  (k : DecodeCursor) (core : CpuCore) :
  ~ In (currentOpCodeBeingExecuted k) recognised_opcodes ->
  INSTR_MOV consumeModRm getAddressMode16 k core =
    Fatal "Unrecognised MOV instruction!" core.
Proof.
  intros Hnot. unfold INSTR_MOV, advance. run_exec.
  cbn [currentOpCodeBeingExecuted].
  unfold recognised_opcodes, r8_imm8_opcodes, r16_imm16_opcodes in *.
  cbn [In app existsb] in *.
  repeat match goal with
  | |- context [Z.eqb (currentOpCodeBeingExecuted k) ?a] =>
      destruct (Z.eqb_spec (currentOpCodeBeingExecuted k) a);
      [exfalso; intuition congruence |]
  end.
  reflexivity.
Qed.

End Mov386.

Lemma MOV386_r8_imm8_family_witness :
  exists k' core',
    intel8086.INSTR_MOV intel8086.consumeModRm_one_byte
      intel8086.getAddressMode16_bx
      (intel8086.cursor_at mov386_ch_2a 0xB5) mov386_ch_2a =
      Returned k' core' /\
    byte_registers (registers core') = [0; 0; 0; 0; 0; 0x2A; 0; 0] /\
    IP (registers core') = 0x102.
Proof.
  destruct (MOV386_r8_imm8_family intel8086.consumeModRm_one_byte
              intel8086.getAddressMode16_bx
              (intel8086.cursor_at mov386_ch_2a 0xB5) mov386_ch_2a)
    as [k' [core' [Hrun [Hbytes [_ [Hip _]]]]]].
  - vm_compute. tauto.
  - reflexivity.
  - exists k', core'. split; [exact Hrun |]. split.
    + exact (eq_sym (f_equal (fun o => match o with
                                       | Some l => l
                                       | None => []
                                       end) Hbytes)).
    + exact Hip.
Defined.

Lemma MOV386_r16_imm16_family_witness :
  exists k' core',
    intel8086.INSTR_MOV intel8086.consumeModRm_one_byte
      intel8086.getAddressMode16_bx
      (intel8086.cursor_at mov386_si_1234 0xBE) mov386_si_1234 =
      Returned k' core' /\
    general_registers (registers core') = [0; 0; 0; 0; 0; 0; 0x1234; 0] /\
    IP (registers core') = 0x103.
Proof.
  destruct (MOV386_r16_imm16_family intel8086.consumeModRm_one_byte
              intel8086.getAddressMode16_bx
              (intel8086.cursor_at mov386_si_1234 0xBE) mov386_si_1234)
    as [k' [core' [Hrun [Hwords [_ [Hip _]]]]]].
  - vm_compute. tauto.
  - reflexivity.
  - exists k', core'. split; [exact Hrun |]. split.
    + exact (eq_sym (f_equal (fun o => match o with
                                       | Some l => l
                                       | None => []
                                       end) Hwords)).
    + exact Hip.
Defined.

Lemma MOV386_with_unknown_opcode_is_fatal_witness :
  intel8086.INSTR_MOV intel8086.consumeModRm_one_byte
    intel8086.getAddressMode16_bx
    (intel8086.cursor_at mov386_88 0x88) mov386_88 =
    Fatal "Unrecognised MOV instruction!" mov386_88.
Proof.
  apply (MOV386_with_unknown_opcode_is_fatal
           intel8086.consumeModRm_one_byte intel8086.getAddressMode16_bx
           (intel8086.cursor_at mov386_88 0x88) mov386_88).
  vm_compute. intuition discriminate.
Defined.

Lemma byte_at_range (m : memmap.MemoryAccessController) (a : Z) :
  0 <= memmap.byte_at m a < 2 ^ 8.
Proof. unfold memmap.byte_at. apply uint8_range. Qed.

Lemma word_at_range (m : memmap.MemoryAccessController) (a : Z) :
  0 <= memmap.word_at m a < 2 ^ 16.
Proof.
  unfold memmap.word_at.
  pose proof (byte_at_range m a). pose proof (byte_at_range m (a + 1)).
  lia.
Qed.

Section Mov386Operands.

Import intel8086.

Variable consumeModRm : DecodeCursor -> Exec (ModRm * Z * DecodeCursor).
Variable getAddressMode16 : ModRm -> DecodeCursor -> Exec (Z * DecodeCursor).

(** X29.  The loads from a memory offset take the offset as a linear
    address; no segment register takes part.  A0 reads one offset byte and
    loads AL from that address, which is therefore below 256; A1 reads a
    16-bit offset and loads AX from that address.  IP is advanced by the
    distance of the cursor from the start of decoding: 2, respectively 3,
    bytes past where the cursor stood. *)
Theorem MOV386_moffs_loads_use_the_bare_offset
  (k : DecodeCursor) (core : CpuCore) :
  let m := memoryAccessController core in
  let next := uint32 (currentByteAddr k + 1) in
  (currentOpCodeBeingExecuted k = 0xA0 ->
   exists k' core',
     INSTR_MOV consumeModRm getAddressMode16 k core = Returned k' core' /\
     AL (registers core') = memmap.byte_at m (memmap.byte_at m next) /\
     memmap.accesses (memoryAccessController core') =
       memmap.accesses m ++
       [memmap.Read8 next; memmap.Read8 (memmap.byte_at m next)] /\
     general_registers (registers core') =
       general_registers (registers core) /\
     IP (registers core') =
       uint16 (IP (registers core) +
               (currentByteAddr k + 2 - currentByteDecodeStart k))) /\
  (currentOpCodeBeingExecuted k = 0xA1 ->
   exists k' core',
     INSTR_MOV consumeModRm getAddressMode16 k core = Returned k' core' /\
     AX (registers core') = memmap.word_at m (memmap.word_at m next) /\
     memmap.accesses (memoryAccessController core') =
       memmap.accesses m ++
       [memmap.Read16 next; memmap.Read16 (memmap.word_at m next)] /\
     byte_registers (registers core') = byte_registers (registers core) /\
     IP (registers core') =
       uint16 (IP (registers core) +
               (currentByteAddr k + 3 - currentByteDecodeStart k))).
Proof.
  cbv zeta. split; intros Hop; unfold INSTR_MOV, advance; run_exec;
    cbn [currentOpCodeBeingExecuted currentByteAddr currentByteDecodeStart];
    rewrite Hop; decide_opcode.
  - pose proof (byte_at_range (memoryAccessController core)
                  (uint32 (currentByteAddr k + 1))) as Hb.
    assert (Haddr :
      uint32 (uint16 (uint8 (memmap.byte_at (memoryAccessController core)
                               (uint32 (currentByteAddr k + 1))))) =
      memmap.byte_at (memoryAccessController core)
        (uint32 (currentByteAddr k + 1))).
    { unfold uint8. rewrite Z.mod_small by lia.
      unfold uint16. rewrite Z.mod_small by lia.
      unfold uint32 at 1. apply Z.mod_small. lia. }
    rewrite Haddr. do 2 eexists. split; [reflexivity |].
    cbn [registers set_registers memoryAccessController
         set_memoryAccessController memmap.accesses memmap.byte_at
         memmap.ram IP set_IP set_AL AL currentByteAddr
         currentByteDecodeStart].
    rewrite IP_advance, <- app_assoc. repeat split. f_equal. lia.
  - pose proof (word_at_range (memoryAccessController core)
                  (uint32 (currentByteAddr k + 1))) as Hw.
    assert (Haddr :
      uint32 (uint16 (memmap.word_at (memoryAccessController core)
                        (uint32 (currentByteAddr k + 1)))) =
      memmap.word_at (memoryAccessController core)
        (uint32 (currentByteAddr k + 1))).
    { unfold uint16. rewrite Z.mod_small by lia.
      unfold uint32 at 1. apply Z.mod_small. lia. }
    rewrite Haddr. do 2 eexists. split; [reflexivity |].
    cbn [registers set_registers memoryAccessController
         set_memoryAccessController memmap.accesses memmap.word_at
         memmap.byte_at memmap.ram IP set_IP set_AX AX currentByteAddr
         currentByteDecodeStart].
    rewrite IP_advance, <- app_assoc. repeat split. f_equal. lia.
Qed.

End Mov386Operands.

Lemma MOV386_moffs_loads_use_the_bare_offset_witness :
  exists k' core',
    intel8086.INSTR_MOV intel8086.consumeModRm_one_byte
      intel8086.getAddressMode16_bx
      (intel8086.cursor_at mov386_al_moffs 0xA0) mov386_al_moffs =
      Returned k' core' /\
    AL (registers core') = 0 /\
    IP (registers core') = 0x102.
Proof.
  destruct (MOV386_moffs_loads_use_the_bare_offset
              intel8086.consumeModRm_one_byte intel8086.getAddressMode16_bx
              (intel8086.cursor_at mov386_al_moffs 0xA0) mov386_al_moffs)
    as [Ha0 _].
  destruct (Ha0 eq_refl) as [k' [core' [Hrun [Hal [_ [_ Hip]]]]]].
  exists k', core'. split; [exact Hrun |]. split; [exact Hal | exact Hip].
Defined.

Lemma three_bit_values (x : Z) :
  0 <= x < 8 -> In x [0; 1; 2; 3; 4; 5; 6; 7].
Proof. intros Hx. cbn [In]. lia. Qed.

Lemma IP_advance_modrm (ip addr start n : Z) :
  uint16 (ip + uint16 (uint32 (uint32 (addr + n) - start))) =
  uint16 (ip + (addr + n - start)).
Proof.
  rewrite uint16_add_r.
  rewrite <- (uint16_add_r ip (uint32 _)), uint16_uint32.
  rewrite uint16_sub_uint32, uint16_add_r. reflexivity.
Qed.

Section Mov386RegisterDirect.

Import intel8086.

Variable consumeModRm : DecodeCursor -> Exec (ModRm * Z * DecodeCursor).
Variable getAddressMode16 : ModRm -> DecodeCursor -> Exec (Z * DecodeCursor).

(** X30.  MOV r16, r/m16 (8B) with a register-direct ModR/M: once
    [consumeModRm] has returned the structure, [n] bytes consumed and the
    cursor, and with the register table as constructed, the 16-bit register
    numbered [reg] receives the value of the one numbered [rm] and no other
    16-bit register changes; the 8-bit registers, the segment registers and
    the flags keep their values; no memory operand is decoded; IP is
    advanced by the distance of the cursor, moved by [n], from the start of
    decoding. *)
Theorem MOV386_r16_r16_copies_between_registers
  (k k1 : DecodeCursor) (modrm : ModRm) (n : Z) (core c1 : CpuCore) :
  currentOpCodeBeingExecuted k = 0x8B ->
  consumeModRm (advance 1 k) core = Returned (modrm, n, k1) c1 ->
  mod_ modrm = 3 ->
  registers16Bit (registers c1) = fresh_registers16Bit ->
  0 <= reg modrm < 8 ->
  0 <= rm modrm < 8 ->
  exists core',
    INSTR_MOV consumeModRm getAddressMode16 k core =
      Returned (advance n k1) core' /\
    update (general_registers (registers c1)) (reg modrm)
      (nth (Z.to_nat (rm modrm)) (general_registers (registers c1)) 0) =
      Some (general_registers (registers core')) /\
    byte_registers (registers core') = byte_registers (registers c1) /\
    segment_registers (registers core') =
      segment_registers (registers c1) /\
    flag_words (registers core') = flag_words (registers c1) /\
    IP (registers core') =
      uint16 (IP (registers c1) +
              (currentByteAddr k1 + n - currentByteDecodeStart k1)) /\
    memoryAccessController core' = memoryAccessController c1.
Proof.
  intros Hop Hconsume Hmod Htable Hreg Hrm.
  apply three_bit_values in Hreg. apply three_bit_values in Hrm.
  revert Hconsume. unfold INSTR_MOV, advance. run_exec.
  cbn [currentOpCodeBeingExecuted currentByteAddr currentByteDecodeStart].
  rewrite Hop. unfold r8_imm8_opcodes, r16_imm16_opcodes. cbn [existsb].
  decide_opcode. cbn [orb]. cbv beta iota.
  intros Hconsume. rewrite Hconsume, Hmod, Htable.
  change (3 =? 3) with true. cbv beta iota.
  pose proof (IP_advance_modrm (IP (registers c1)) (currentByteAddr k1)
                (currentByteDecodeStart k1) n) as Hip.
  cbn [In] in Hreg, Hrm.
  repeat (destruct Hreg as [<- | Hreg]); [.. | contradiction];
    (repeat (destruct Hrm as [<- | Hrm]); [.. | contradiction]);
    decide_index; rewrite ?Htable; decide_index;
    cbn [load16 store16 gets modify_registers modify];
    (eexists; split; [reflexivity |]);
    cbn [registers set_registers memoryAccessController IP set_IP
         currentByteAddr currentByteDecodeStart
         set_AX set_CX set_DX set_BX set_SP set_BP set_SI set_DI];
    (split; [reflexivity |]); (split; [reflexivity |]);
    (split; [reflexivity |]); (split; [reflexivity |]);
    (split; [exact Hip | reflexivity]).
Qed.

End Mov386RegisterDirect.

Lemma MOV386_r16_r16_copies_between_registers_witness :
  exists core',
    intel8086.INSTR_MOV intel8086.consumeModRm_one_byte
      intel8086.getAddressMode16_bx
      (intel8086.cursor_at mov386_ax_bx 0x8B) mov386_ax_bx =
      Returned
        (intel8086.advance 1
           (intel8086.advance 1 (intel8086.cursor_at mov386_ax_bx 0x8B)))
        core' /\
    general_registers (registers core') =
      [0x1234; 0; 0; 0x1234; 0; 0; 0; 0] /\
    IP (registers core') = 0x102.
Proof.
  destruct (MOV386_r16_r16_copies_between_registers
              intel8086.consumeModRm_one_byte intel8086.getAddressMode16_bx
              (intel8086.cursor_at mov386_ax_bx 0x8B)
              (intel8086.advance 1 (intel8086.cursor_at mov386_ax_bx 0x8B))
              (decodeModRm 0xC3) 1 mov386_ax_bx
              (final_state
                 (intel8086.consumeModRm_one_byte
                    (intel8086.advance 1
                       (intel8086.cursor_at mov386_ax_bx 0x8B))
                    mov386_ax_bx)))
    as [core' [Hrun [Hwords [_ [_ [_ [Hip _]]]]]]].
  - reflexivity.
  - vm_compute. reflexivity.
  - reflexivity.
  - reflexivity.
  - vm_compute. split; [discriminate | reflexivity].
  - vm_compute. split; [discriminate | reflexivity].
  - exists core'. split; [exact Hrun |]. split.
    + exact (eq_sym (f_equal (fun o => match o with
                                       | Some l => l
                                       | None => []
                                       end) Hwords)).
    + exact Hip.
Defined.
